(** * opexebo: spatial accumulation and spatial occupancy

    A shallow embedding of [opexebo/general/accumulatespatial.py] and
    [opexebo/analysis/spatialOccupancy.py], and the properties of the two
    functions that the specification states.

    Conventions of the embedding.
    - A Python float is an exact rational ([Q]); values the code produces
      are kept in lowest terms ([Qred]) so that results can be compared
      with [=].  A position coordinate may also be [NaN] (a missing
      sample); other non-finite inputs are outside the model.
    - A 2D numpy array is the list of its rows, all of one length.
    - A raised exception is the [Raise] branch of [result]; the code is
      sequenced with [let*].
    - The numpy routines the code calls ([np.histogram], [np.histogram2d],
      [np.nanmin], [np.diff], ...) are modelled in [Module Np] after their
      documented behaviour.  [np.ceil] returns a whole number of float
      type: [np.histogram] takes an integer count only and rejects it
      with [TypeError]; [np.histogram2d], in the numpy releases the
      package was written for, accepts it.
    - Error messages are given without their formatted arguments, except
      the one that names the shape tag. *)

From Stdlib Require Import String Ascii.
From Stdlib Require Import QArith Qround Qminmax ZArith Bool Lia Lqa Sorted List.
Import ListNotations.

Local Open Scope Q_scope.

(* ================================================================== *)
(** ** Python exceptions and results *)

Inductive exn : Type :=
| ValueError (msg : string)
| KeyError (msg : string)
| IndexError (msg : string)
| NotImplementedError (msg : string)
| TypeError (msg : string)
| ZeroDivisionError
| UnboundLocalError (name : string).

Inductive result (A : Type) : Type :=
| Ok (a : A)
| Raise (e : exn).

Arguments Ok {A} a.
Arguments Raise {A} e.

Definition bind {A B : Type} (c : result A) (k : A -> result B) : result B :=
  match c with
  | Ok a => k a
  | Raise e => Raise e
  end.

Notation "'let*' x ':=' c 'in' k" := (bind c (fun x => k))
  (at level 10, x pattern, c at level 100, k at level 200).

(** [d.get(key, default)] on an optional keyword. *)
Definition get {A : Type} (v : option A) (default : A) : A :=
  match v with
  | Some a => a
  | None => default
  end.

(* ================================================================== *)
(** ** Data *)

(** A position coordinate: a finite float or NaN. *)
Inductive coord : Type :=
| Val (q : Q)
| NaN.

(** A histogram, a map or an edge collection of rank 1 or 2. *)
Inductive ndarray (A : Type) : Type :=
| Arr1 (v : list A)
| Arr2 (rows : list (list A)).

Arguments Arr1 {A} v.
Arguments Arr2 {A} rows.

Definition nd_map {A B : Type} (f : A -> B) (a : ndarray A) : ndarray B :=
  match a with
  | Arr1 v => Arr1 (map f v)
  | Arr2 rows => Arr2 (map (map f) rows)
  end.

(** Row-major flattening ([ndarray.ravel]). *)
Definition nd_flat {A : Type} (a : ndarray A) : list A :=
  match a with
  | Arr1 v => v
  | Arr2 rows => concat rows
  end.

(** [np.ma.MaskedArray]: the data and its mask bin by bin
    ([np.ma.getmaskarray]).  Where no bin is masked numpy stores the
    scalar [nomask] in the place of an array of [False]; the bins it
    masks are the same. *)
Record masked_array : Type := {
  ma_data : ndarray Q;
  ma_mask : ndarray bool
}.

(** The value of the [limits] keyword, by Python type. *)
Inductive limits_t : Type :=
| LimNone
| LimTuple (l : list Q)
| LimList (l : list Q)
| LimArray (l : list Q)      (* a 1D np.ndarray *)
| LimOther.                  (* any other type, e.g. a bare number *)

(** The value of the [arena_size] keyword, by Python type. *)
Inductive arena_size_t : Type :=
| SizeScalar (q : Q)         (* float or int *)
| SizeSeq (l : list Q)       (* tuple, list or np.ndarray *)
| SizeOther.                 (* any other type *)

(** [**kwargs]: every keyword may be absent. *)
Record kwargs : Type := {
  kw_arena_shape : option string;
  kw_arena_size : option arena_size_t;
  kw_bin_width : option Q;
  kw_speed_cutoff : option Q;
  kw_limits : option limits_t;
  kw_debug : option bool
}.

(** The speed argument: an array of some rank, with its elements in
    row-major order ([speed.ndim], [speed.size]). *)
Record speed_array : Type := {
  speed_ndim : nat;
  speed_flat : list Q
}.

(** The arena extent as the arena-size validator returns it. *)
Inductive arena : Type :=
| Extent1 (w : Q)
| Extent2 (w h : Q).

(** [np.ceil(arena_size / bin_width)]: one count, or one per axis, as
    whole numbers of float type. *)
Inductive bins : Type :=
| Bins1 (n : Z)
| Bins2 (nx ny : Z).

(** A bin count as [np.histogram] receives it: a Python int, or a whole
    number of float type. *)
Inductive count_arg : Type :=
| IntCount (n : Z)
| FloatCount (n : Z).

(* ================================================================== *)
(** ** The defaults table *)

Module Default.

(** Modelled from the spec: the module [opexebo.defaults] is not among the
    sources.  Section 6 gives the bin width 2.5, the speed cut-off 0 and the
    three shape vocabularies; the docstring of [spatial_occupancy] says the
    shape defaults to rectangular. *)
Definition bin_width : Q := 5 # 2.

(** Modelled from the spec: see [bin_width]. *)
Definition speed_cutoff : Q := 0.

(** Modelled from the spec: see [bin_width]. *)
Definition shape : string := "rectangular"%string.

(** Modelled from the spec: see [bin_width]. *)
Definition shapes_square : list string :=
  ["square"; "rectangle"; "rectangular"; "rect"; "s"; "r"]%string.

(** Modelled from the spec: see [bin_width]. *)
Definition shapes_circle : list string :=
  ["circ"; "circular"; "circle"; "c"]%string.

(** Modelled from the spec: see [bin_width]. *)
Definition shapes_linear : list string :=
  ["linear"; "line"; "l"]%string.

End Default.

(* ================================================================== *)
(** ** Python built-ins *)

Module Py.

(** [c.lower()] on an ASCII character. *)
Definition lower_ascii (c : ascii) : ascii :=
  let n := nat_of_ascii c in
  if (Nat.leb 65 n && Nat.leb n 90)%bool then ascii_of_nat (n + 32) else c.

(** [s.lower()] on an ASCII string. *)
Fixpoint lower (s : string) : string :=
  match s with
  | EmptyString => EmptyString
  | String c r => String (lower_ascii c) (lower r)
  end.

(** [s in t] for a tuple of strings. *)
Definition str_in (s : string) (t : list string) : bool :=
  existsb (String.eqb s) t.

(** [min(1.0, n / d)] where [n] is a Python int and [d] a numpy integer:
    a zero [d] gives [inf] or [nan] with a warning, neither of which is
    below [1.0], so [min] returns its first argument. *)
Definition min_one_ratio (n d : nat) : Q :=
  match d with
  | O => 1
  | S _ =>
      let r := Qred (inject_Z (Z.of_nat n) / inject_Z (Z.of_nat d)) in
      if Qlt_le_dec r 1 then r else 1
  end.

End Py.

(* ================================================================== *)
(** ** numpy *)

Module Np.

Definition Qlt_bool (a b : Q) : bool := negb (Qle_bool b a).

(** The non-NaN elements of a coordinate array. *)
Fixpoint finite (x : list coord) : list Q :=
  match x with
  | [] => []
  | Val q :: r => q :: finite r
  | NaN :: r => finite r
  end.

(** [np.nanmin(x)].  On an empty array numpy raises [ValueError]; on an
    array of NaNs only it returns NaN, which the histogram routine that
    receives it as a range bound rejects with [ValueError]: the model
    raises at once in both cases. *)
Definition nanmin (x : list coord) : result Q :=
  match finite x with
  | [] => Raise (ValueError "no finite value to take the limits from")
  | q :: r => Ok (fold_left Qmin r q)
  end.

(** [np.nanmax(x)], as [nanmin]. *)
Definition nanmax (x : list coord) : result Q :=
  match finite x with
  | [] => Raise (ValueError "no finite value to take the limits from")
  | q :: r => Ok (fold_left Qmax r q)
  end.

(** [np.diff(t)]: the differences of consecutive elements. *)
Fixpoint diff (t : list Q) : list Q :=
  match t with
  | a :: (b :: _) as r => Qred (b - a) :: diff r
  | _ => []
  end.

(** [np.min(a)]: [ValueError] on an empty array. *)
Definition min (a : list Q) : result Q :=
  match a with
  | [] => Raise (ValueError "zero-size array to reduction operation minimum which has no identity")
  | q :: r => Ok (fold_left Qmin r q)
  end.

(** [a[m]] for a boolean mask [m] of the length of [a]. *)
Fixpoint bool_index {A : Type} (a : list A) (m : list bool) : list A :=
  match a, m with
  | x :: a', b :: m' => if b then x :: bool_index a' m' else bool_index a' m'
  | _, _ => []
  end.

(** [lo <= x < hi] on a coordinate; a comparison with NaN is false. *)
Definition in_half_open (lo hi : Q) (c : coord) : bool :=
  match c with
  | Val q => Qle_bool lo q && Qlt_bool q hi
  | NaN => false
  end.

(** [np.linspace(lo, hi, n + 1)]. *)
Definition linspace (lo hi : Q) (n : nat) : list Q :=
  map (fun i => Qred (lo + inject_Z (Z.of_nat i) * ((hi - lo) / inject_Z (Z.of_nat n))))
      (seq 0 (S n)).

(** The outer edges of a histogram with a given range: the range must not
    be reversed, and an empty range is widened by a half on each side. *)
Definition outer_edges (lo hi : Q) : result (Q * Q) :=
  if Qlt_bool hi lo
  then Raise (ValueError "max must be larger than min in range parameter.")
  else if Qeq_bool lo hi
       then Ok (lo - (1 # 2), hi + (1 # 2))
       else Ok (lo, hi).

(** A histogram needs at least one bin. *)
Definition bin_count (n : Z) : result nat :=
  if (n <? 1)%Z
  then Raise (ValueError "`bins` must be positive, when an integer")
  else Ok (Z.to_nat n).

(** The bin a coordinate falls into, among [n] equal bins over
    [[lo, hi]]: bins are closed on the left and open on the right, but the
    last bin is closed on both sides; values outside the range and NaN
    fall into no bin. *)
Definition bin_of (lo hi : Q) (n : nat) (c : coord) : option nat :=
  match c with
  | NaN => None
  | Val q =>
      if Qle_bool lo q && Qle_bool q hi
      then Some (Nat.min
                   (Z.to_nat (Qfloor ((q - lo) * (inject_Z (Z.of_nat n) / (hi - lo)))))
                   (n - 1))
      else None
  end.

Definition is_bin (o : option nat) (i : nat) : bool :=
  match o with
  | Some k => Nat.eqb k i
  | None => false
  end.

(** [np.histogram(x, bins=n, range=(lo, hi))]: the counts and the edges.
    The count must be an integer: a float, whole or not, is rejected
    with [TypeError] before anything else is looked at. *)
Definition histogram (x : list coord) (bins : count_arg) (lo hi : Q)
  : result (list nat * list Q) :=
  match bins with
  | FloatCount _ => Raise (TypeError "`bins` must be an integer, a string, or an array")
  | IntCount n =>
      let* k := bin_count n in
      let* (lo', hi') := outer_edges lo hi in
      Ok (map (fun i => length (filter (fun c => is_bin (bin_of lo' hi' k c) i) x)) (seq 0 k),
          linspace lo' hi' k)
  end.

(** [np.histogram2d(x, y, bins=(nx, ny), range=((xlo, xhi), (ylo, yhi)))]:
    [hist[i][j]] counts the samples in bin [i] of x and bin [j] of y.
    The counts may be whole numbers of float type. *)
Definition histogram2d (x y : list coord) (nx ny : Z) (xr yr : Q * Q)
  : result (list (list nat) * list Q * list Q) :=
  let* kx := bin_count nx in
  let* (xlo, xhi) := outer_edges (fst xr) (snd xr) in
  let* ky := bin_count ny in
  let* (ylo, yhi) := outer_edges (fst yr) (snd yr) in
  Ok (map (fun i =>
             map (fun j =>
                    length (filter (fun p => is_bin (bin_of xlo xhi kx (fst p)) i
                                             && is_bin (bin_of ylo yhi ky (snd p)) j)
                                   (combine x y)))
                 (seq 0 ky))
          (seq 0 kx),
      linspace xlo xhi kx,
      linspace ylo yhi ky).

(** [h.transpose()] of a 2D array. *)
Definition transpose (h : list (list nat)) : list (list nat) :=
  map (fun j => map (fun row => nth j row 0%nat) h) (seq 0 (length (hd [] h))).

(** [np.count_nonzero(a)]. *)
Definition count_nonzero (a : ndarray nat) : nat :=
  length (filter (fun c => negb (Nat.eqb c 0)) (nd_flat a)).

(** [a.size]. *)
Definition size (a : ndarray nat) : nat := length (nd_flat a).

(** [np.ma.masked_where(condition, a)] on an unmasked [a]: the bins
    where the condition holds are masked (numpy stores [nomask] when
    there is none). *)
Definition masked_where (condition : ndarray bool) (a : ndarray Q) : masked_array :=
  {| ma_data := a; ma_mask := condition |}.

(** [np.sqrt(np.power(x, 2) + np.power(y, 2)) <= r]. *)
Definition within (x y r : Q) : bool :=
  Qle_bool 0 r && Qle_bool (x * x + y * y) (r * r).

(** [np.sum(distance_map <= radius)] over [np.meshgrid(xc, yc)]. *)
Definition count_in_field (xc yc : list Q) (r : Q) : nat :=
  length (filter (fun b : bool => b)
                 (concat (map (fun y => map (fun x => within x y r) xc) yc))).

End Np.

(* ================================================================== *)
(** ** opexebo.general *)

(** [a[i, :]]: row [i] of a 2D array. *)
Definition row {A : Type} (i : nat) (a : list (list A)) : result (list A) :=
  match nth_error a i with
  | Some r => Ok r
  | None => Raise (IndexError "index is out of bounds for axis 0")
  end.

(** Modelled from the spec: [validatekeyword__arena_size] is not among the
    sources.  Section 4.1: the arena size must be coercible to a width or
    to a (width, height) pair matching the dimensionality, else an
    invalid-input error; the validator normalises scalar and pair inputs
    and confirms dimensional consistency.  It returns the extent and
    whether the map is two-dimensional. *)
Definition validatekeyword__arena_size (kwv : option arena_size_t) (dims : nat)
  : result (arena * bool) :=
  match kwv, dims with
  | Some (SizeScalar w), 1%nat => Ok (Extent1 w, false)
  | Some (SizeScalar w), 2%nat => Ok (Extent2 w w, true)
  | Some (SizeSeq [w]), 1%nat => Ok (Extent1 w, false)
  | Some (SizeSeq [w; h]), 2%nat => Ok (Extent2 w h, true)
  | _, _ => Raise (ValueError "arena_size does not match the dimensions of the positions")
  end.

(** [type(limits) in (tuple, list, np.ndarray, type(None))]. *)
Definition limits_type_ok (l : limits_t) : bool :=
  match l with
  | LimOther => false
  | _ => true
  end.

(** The truth value of [limits == None]: for an array the comparison is
    element-wise, and an array of two or more elements has no truth
    value. *)
Definition limits_eq_None (l : limits_t) : result bool :=
  match l with
  | LimNone => Ok true
  | LimArray a =>
      if (2 <=? length a)%nat
      then Raise (ValueError "The truth value of an array with more than one element is ambiguous. Use a.any() or a.all()")
      else Ok false
  | _ => Ok false
  end.

(** The elements of [limits], for [len(limits)] and [limits[i]]. *)
Definition limits_elems (l : limits_t) : list Q :=
  match l with
  | LimTuple e | LimList e | LimArray e => e
  | _ => []
  end.

(** [np.ceil(arena_size / bin_width)].  A zero bin width is a
    [ZeroDivisionError] on Python floats and an infinite count, which the
    histogram routine rejects, on numpy floats: the model raises in both
    cases. *)
Definition num_bins_of (arena_size : arena) (bin_width : Q) : result bins :=
  if Qeq_bool bin_width 0 then Raise ZeroDivisionError
  else Ok (match arena_size with
           | Extent1 w => Bins1 (Qceiling (w / bin_width))
           | Extent2 w h => Bins2 (Qceiling (w / bin_width)) (Qceiling (h / bin_width))
           end).

(** Lines 93-101: the limits of a 2D map, as a pair of ranges. *)
Definition limits_2d (x y : list coord) (limits : limits_t)
  : result ((Q * Q) * (Q * Q)) :=
  let* none := limits_eq_None limits in
  if none : bool
  then
    let* xmin := Np.nanmin x in
    let* xmax := Np.nanmax x in
    let* ymin := Np.nanmin y in
    let* ymax := Np.nanmax y in
    Ok ((xmin, xmax), (ymin, ymax))
  else
    let l := limits_elems limits in
    if negb (Nat.eqb (length l) 4)
    then Raise (ValueError "You must provide a 4-element 'limits' value for a 2D map.")
    else Ok ((nth 0 l 0, nth 1 l 0), (nth 2 l 0, nth 3 l 0)).

(** Lines 113-117: the limits of a 1D map. *)
Definition limits_1d (x : list coord) (limits : limits_t) : result (Q * Q) :=
  let* none := limits_eq_None limits in
  if none : bool
  then
    let* xmin := Np.nanmin x in
    let* xmax := Np.nanmax x in
    Ok (xmin, xmax)
  else
    let l := limits_elems limits in
    if negb (Nat.eqb (length l) 2)
    then Raise (ValueError "You must provide a 2-element 'limits' value for a 1D map.")
    else Ok (nth 0 l 0, nth 1 l 0).

(** Lines 102-103: the inclusion mask of a 2D map. *)
Definition in_range_2d (limits : (Q * Q) * (Q * Q)) (x y : list coord) : list bool :=
  map (fun p => Np.in_half_open (fst (fst limits)) (snd (fst limits)) (fst p)
                && Np.in_half_open (fst (snd limits)) (snd (snd limits)) (snd p))
      (combine x y).

(** Line 119: the inclusion mask of a 1D map. *)
Definition in_range_1d (limits : Q * Q) (x : list coord) : list bool :=
  map (Np.in_half_open (fst limits) (snd limits)) x.

(** [accumulatespatial(pos, **kwargs)], exported by [opexebo.general] as
    [accumulate_spatial].  Error messages are given without their
    formatted arguments. *)
Definition accumulatespatial (pos : list (list coord)) (kw : kwargs)
  : result (ndarray nat * ndarray Q) :=
  let dims := length pos in
  if negb (Nat.eqb dims 1 || Nat.eqb dims 2)
  then Raise (ValueError "pos should have either 1 or 2 dimensions.")
  else
    let bin_width := get (kw_bin_width kw) Default.bin_width in
    let arena_size := kw_arena_size kw in
    let limits := get (kw_limits kw) LimNone in
    if negb (limits_type_ok limits)
    then Raise (ValueError "You must provide an array-like 'limits' value")
    else
      let* (arena_size, is_2d) := validatekeyword__arena_size arena_size dims in
      let* num_bins := num_bins_of arena_size bin_width in
      (* Histogram of positions *)
      let* x := row 0 pos in
      if is_2d : bool
      then
        let* y := row 1 pos in
        let* limits := limits_2d x y limits in
        let in_range := in_range_2d limits x y in
        let in_range_x := Np.bool_index x in_range in
        let in_range_y := Np.bool_index y in_range in
        let (nx, ny) := match num_bins with
                        | Bins2 nx ny => (nx, ny)
                        | Bins1 n => (n, n)
                        end in
        let* (hist, xedges, yedges) :=
          Np.histogram2d in_range_x in_range_y nx ny (fst limits) (snd limits) in
        let hist := Np.transpose hist in
        let edges := Arr2 [yedges; xedges] in
        Ok (Arr2 hist, edges)
      else
        let* limits := limits_1d x limits in
        let in_range := in_range_1d limits x in
        let in_range_x := Np.bool_index x in_range in
        match num_bins with
        | Bins1 n =>
            (* [num_bins] is the float that [np.ceil] returned *)
            let* (hist, edges) :=
              Np.histogram x (FloatCount n) (fst limits) (snd limits) in
            Ok (Arr1 hist, Arr1 edges)
        | Bins2 _ _ =>
            (* a pair of counts in the 1D branch: the validator never
               returns one with [is_2d] false *)
            Raise (ValueError "`bins` must be an integer here")
        end.

(* ================================================================== *)
(** ** opexebo.analysis *)

(** The diagnostics printed in debug mode evaluate [time[-1]] and
    [np.min(np.diff(time))]; the text itself is not modelled. *)
Definition debug_header (debug : bool) (time : list Q) : result unit :=
  if debug
  then
    match time with
    | [] => Raise (IndexError "index -1 is out of bounds for axis 0 with size 0")
    | _ => let* _ := Np.min (Np.diff time) in Ok tt
    end
  else Ok tt.

(** The count of a bin as a float. *)
Definition count_to_Q (c : nat) : Q := inject_Z (Z.of_nat c).

(** [spatial_occupancy(time, position, speed, **kwargs)].  Error messages
    are given without their formatted arguments, except the one that names
    the shape. *)
Definition spatial_occupancy (time : list Q) (position : list (list coord))
    (speed : speed_array) (kw : kwargs)
  : result (masked_array * Q * ndarray Q) :=
  (* Check for correct shapes. *)
  let dimensionality := length position in
  let num_samples := length (hd [] position) in
  if negb (Nat.eqb dimensionality 1 || Nat.eqb dimensionality 2)
  then Raise (ValueError "Positions array has the wrong number of columns")
  else if negb (Nat.eqb (speed_ndim speed) 1)
  then Raise (ValueError "Speed array has the wrong number of columns")
  else if negb (Nat.eqb (length (speed_flat speed)) num_samples)
  then Raise (ValueError "Speed array does not have the same number of samples as Positions")
  else
    match kw_arena_size kw with
    | None => Raise (KeyError "Arena dimensions not provided. Please provide dimensions using keyword 'arena_size'.")
    | Some arena_size =>
        (* [np.ma.masked_invalid] marks the NaNs; the mask is dropped again
           by [np.array([x, y])] below, the NaNs stay in the data *)
        let speed_cutoff := get (kw_speed_cutoff kw) Default.speed_cutoff in
        let debug := get (kw_debug kw) false in
        let* _ := debug_header debug time in
        let good := map (fun s => Np.Qlt_bool speed_cutoff s) (speed_flat speed) in
        let* x0 := row 0 position in
        let x := Np.bool_index x0 good in
        let* y1 := row 1 position in
        let y := Np.bool_index y1 good in
        let pos := [x; y] in
        let* (occupancy_map, bin_edges) := accumulatespatial pos kw in
        (* So far, times are expressed in units of tracking frames *)
        let* frame_duration := Np.min (Np.diff time) in
        let occupancy_map_time :=
          nd_map (fun c => Qred (count_to_Q c * frame_duration)) occupancy_map in
        let masked_map :=
          Np.masked_where
            (nd_map (fun c => Np.Qlt_bool (count_to_Q c) (1 # 1000)) occupancy_map)
            occupancy_map_time in
        let bin_width := get (kw_bin_width kw) Default.bin_width in
        let shape := get (kw_arena_shape kw) Default.shape in
        let* coverage :=
          if Py.str_in (Py.lower shape) Default.shapes_square
          then
            match Np.size occupancy_map with
            | O => Raise ZeroDivisionError
            | S _ =>
                Ok (Qred (count_to_Q (Np.count_nonzero occupancy_map)
                          / count_to_Q (Np.size occupancy_map)))
            end
          else if Py.str_in (Py.lower shape) Default.shapes_circle
          then
            let* radius :=
              match arena_size with
              | SizeScalar a => Ok (Some (a / 2))
              | SizeSeq (a :: _) => Ok (Some (a / 2))
              | SizeSeq [] => Raise (IndexError "tuple index out of range")
              | SizeOther => Ok None
              end in
            match bin_edges with
            | Arr1 _ => Raise (IndexError "invalid index to scalar variable.")
            | Arr2 e =>
                let* e0 := row 0 e in
                let* e1 := row 1 e in
                let x_centres := map (fun v => v + bin_width / 2) (removelast e0) in
                let y_centres := map (fun v => v + bin_width / 2) (removelast e1) in
                match radius with
                | None => Raise (UnboundLocalError "radius")
                | Some radius =>
                    Ok (Py.min_one_ratio (Np.count_nonzero occupancy_map)
                                         (Np.count_in_field x_centres y_centres radius))
                end
            end
          else if Py.str_in (Py.lower shape) Default.shapes_linear
          then Raise (NotImplementedError
                        "Spatial Occupancy does not currently support linear arenas")
          else Raise (NotImplementedError ("Arena shape '" ++ shape ++ "' not understood")) in
        Ok (masked_map, coverage, bin_edges)
    end.

(* ================================================================== *)
(** ** Notions used in the statements *)

(** The samples that pass the speed filter (line 113). *)
Definition good (speed : speed_array) (kw : kwargs) : list bool :=
  map (fun s => Np.Qlt_bool (get (kw_speed_cutoff kw) Default.speed_cutoff) s)
      (speed_flat speed).

(** The positions handed to the accumulator (lines 114-116). *)
Definition kept (position : list (list coord)) (speed : speed_array) (kw : kwargs)
  : list (list coord) :=
  map (fun r => Np.bool_index r (good speed kw)) position.

(** The configuration [kw] with another shape tag. *)
Definition with_shape (kw : kwargs) (shape : option string) : kwargs :=
  {| kw_arena_shape := shape;
     kw_arena_size := kw_arena_size kw;
     kw_bin_width := kw_bin_width kw;
     kw_speed_cutoff := kw_speed_cutoff kw;
     kw_limits := kw_limits kw;
     kw_debug := kw_debug kw |}.

(** The frame duration in the words of the specification: the least of
    the positive differences of consecutive timestamps. *)
Definition min_positive_delta (time : list Q) : option Q :=
  match filter (fun d => Np.Qlt_bool 0 d) (Np.diff time) with
  | [] => None
  | q :: r => Some (fold_left Qmin r q)
  end.

Definition strictly_increasing (l : list Q) : Prop :=
  forall i j, (i < j < length l)%nat -> nth i l 0 < nth j l 0.

(** The mask in the words of the specification: true exactly at the bins
    whose time is below 0.001. *)
Definition mask_marks_short_times (m : masked_array) : Prop :=
  Forall2 (fun (b : bool) (v : Q) => b = true <-> v < 1 # 1000)
          (nd_flat (ma_mask m)) (nd_flat (ma_data m)).


(** The configuration [kw] with the debug flag set. *)
Definition with_debug (kw : kwargs) (debug : bool) : kwargs :=
  {| kw_arena_shape := kw_arena_shape kw;
     kw_arena_size := kw_arena_size kw;
     kw_bin_width := kw_bin_width kw;
     kw_speed_cutoff := kw_speed_cutoff kw;
     kw_limits := kw_limits kw;
     kw_debug := Some debug |}.

(** Two coordinate rows that agree wherever the mask [m] is true (and have
    the length of [m]). *)
Fixpoint same_where (m : list bool) (a b : list coord) : Prop :=
  match m, a, b with
  | [], [], [] => True
  | k :: m', u :: a', v :: b' => (k = true -> u = v) /\ same_where m' a' b'
  | _, _, _ => False
  end.

(** The sum of the elements of a float array ([np.sum]). *)
Definition Qsum (l : list Q) : Q := fold_right Qplus 0 l.

(** The number of true elements of a boolean array. *)
Definition count_true (l : list bool) : nat := length (filter (fun b : bool => b) l).

(** Edges that run from [lo] to [hi] in equal steps. *)
Definition evenly_spaced (ev : list Q) (lo hi : Q) : Prop :=
  nth 0 ev 0 == lo /\
  nth (length ev - 1) ev 0 == hi /\
  forall i, (S i < length ev)%nat ->
            nth (S i) ev 0 - nth i ev 0 == (hi - lo) / inject_Z (Z.of_nat (length ev - 1)).

(** Sample inputs. *)
Module Sample.

Definition vals (l : list Q) : list coord := map Val l.

Definition speed1 (l : list Q) : speed_array :=
  {| speed_ndim := 1; speed_flat := l |}.

(** [arena_size=10, bin_width=5]. *)
Definition kw (shape : option string) (limits : option limits_t) : kwargs :=
  {| kw_arena_shape := shape;
     kw_arena_size := Some (SizeScalar 10);
     kw_bin_width := Some 5;
     kw_speed_cutoff := None;
     kw_limits := limits;
     kw_debug := None |}.

Definition xs : list coord := vals [0; 3; 10].
Definition ys : list coord := vals [0; 7; 10].

End Sample.

(* ================================================================== *)
(** ** Basic facts *)

Lemma bind_Ok {A B : Type} (c : result A) (k : A -> result B) (b : B) :
  bind c k = Ok b -> exists a, c = Ok a /\ k a = Ok b.
Proof.
  destruct c as [a | e]; simpl; intros H.
  - exists a. split; [reflexivity | exact H].
  - discriminate H.
Qed.

(** Split a successful [let*] in hypothesis [H]. *)
Ltac inv_bind H :=
  let a := fresh "a" in
  let Ha := fresh "Ha" in
  apply bind_Ok in H; destruct H as (a & Ha & H).

Tactic Notation "inv_bind_as" hyp(H) ident(a) ident(Ha) :=
  apply bind_Ok in H; destruct H as (a & Ha & H).

Lemma Qlt_bool_iff (a b : Q) : Np.Qlt_bool a b = true <-> a < b.
Proof.
  unfold Np.Qlt_bool. rewrite negb_true_iff.
  split; intros H.
  - apply Qnot_le_lt. intros Hle. apply Qle_bool_iff in Hle. congruence.
  - destruct (Qle_bool b a) eqn:E; [| reflexivity].
    apply Qle_bool_iff in E. exfalso. apply (Qlt_not_le _ _ H E).
Qed.

Lemma Qlt_bool_false_iff (a b : Q) : Np.Qlt_bool a b = false <-> b <= a.
Proof.
  unfold Np.Qlt_bool. rewrite negb_false_iff. apply Qle_bool_iff.
Qed.

Lemma Qdiv_pos (a b : Q) : 0 < a -> 0 < b -> 0 < a / b.
Proof.
  intros Ha Hb. apply Qlt_shift_div_l; [exact Hb |].
  rewrite Qmult_0_l. exact Ha.
Qed.

Lemma count_to_Q_nonneg (c : nat) : 0 <= count_to_Q c.
Proof.
  unfold count_to_Q, Qle. simpl. lia.
Qed.

Lemma count_to_Q_zero (c : nat) : count_to_Q c < 1 # 1000 <-> c = 0%nat.
Proof.
  unfold count_to_Q, Qlt. simpl. lia.
Qed.

Lemma count_to_Q_pos (c : nat) : c <> 0%nat -> 1 <= count_to_Q c.
Proof.
  unfold count_to_Q, Qle. simpl. lia.
Qed.

Lemma filter_length_le {A : Type} (f : A -> bool) (l : list A) :
  (length (filter f l) <= length l)%nat.
Proof.
  induction l as [| a l IH]; simpl; [lia |].
  destruct (f a); simpl; lia.
Qed.

Lemma filter_all {A : Type} (f : A -> bool) (l : list A) :
  Forall (fun a => f a = true) l -> filter f l = l.
Proof.
  induction 1 as [| a l Ha _ IH]; simpl; [reflexivity |].
  rewrite Ha, IH. reflexivity.
Qed.

Lemma filter_map_length {A : Type} (P : A -> bool) (l : list A) :
  length (filter (fun b : bool => b) (map P l)) = length (filter P l).
Proof.
  induction l as [| a l IH]; simpl; [reflexivity |].
  destruct (P a); simpl; rewrite IH; reflexivity.
Qed.

Lemma nd_flat_map {A B : Type} (f : A -> B) (a : ndarray A) :
  nd_flat (nd_map f a) = map f (nd_flat a).
Proof.
  destruct a as [v | rows]; simpl; [reflexivity |].
  symmetry. apply concat_map.
Qed.

Lemma Forall2_map_map {A B C : Type} (P : B -> C -> Prop) (f : A -> B) (g : A -> C)
    (l : list A) :
  (forall a, P (f a) (g a)) -> Forall2 P (map f l) (map g l).
Proof.
  intros H. induction l as [| a l IH]; simpl; constructor; auto.
Qed.

Lemma Forall2_map_l {A B : Type} (P : B -> A -> Prop) (f : A -> B) (l : list A) :
  (forall a, P (f a) a) -> Forall2 P (map f l) l.
Proof.
  intros H. induction l as [| a l IH]; simpl; constructor; auto.
Qed.

Lemma combine_snoc {A B : Type} (x : list A) (y : list B) (a : A) (b : B) :
  length x = length y ->
  combine (x ++ [a]) (y ++ [b]) = combine x y ++ [(a, b)].
Proof.
  revert y. induction x as [| u x IH]; intros [| v y] Hlen; simpl in *;
    try discriminate Hlen; [reflexivity |].
  injection Hlen as Hlen. rewrite IH by exact Hlen. reflexivity.
Qed.

Lemma list_sum_concat_map {A : Type} (g : A -> list nat) (l : list A) :
  list_sum (concat (map g l)) = list_sum (map (fun a => list_sum (g a)) l).
Proof.
  induction l as [| a l IH]; simpl; [reflexivity |].
  rewrite list_sum_app, IH. reflexivity.
Qed.

Lemma list_sum_map_add {A : Type} (f g : A -> nat) (l : list A) :
  list_sum (map (fun a => f a + g a)%nat l)
  = (list_sum (map f l) + list_sum (map g l))%nat.
Proof.
  induction l as [| a l IH]; simpl; [reflexivity |]. rewrite IH. lia.
Qed.

Lemma list_sum_map_const_zero {A : Type} (l : list A) :
  list_sum (map (fun _ => 0%nat) l) = 0%nat.
Proof.
  induction l as [| a l IH]; simpl; [reflexivity | exact IH].
Qed.

Lemma list_sum_map_ext {A : Type} (f g : A -> nat) (l : list A) :
  (forall a, In a l -> f a = g a) -> list_sum (map f l) = list_sum (map g l).
Proof.
  intros H. rewrite (map_ext_in f g l H). reflexivity.
Qed.

Lemma map_nth_seq (r : list nat) :
  map (fun j => nth j r 0%nat) (seq 0 (length r)) = r.
Proof.
  induction r as [| a r IH]; simpl; [reflexivity |].
  rewrite <- seq_shift, map_map. simpl. rewrite IH. reflexivity.
Qed.

Lemma list_sum_columns (n : nat) (h : list (list nat)) :
  Forall (fun r => length r = n) h ->
  list_sum (concat (map (fun j => map (fun row => nth j row 0%nat) h) (seq 0 n)))
  = list_sum (concat h).
Proof.
  intros Hrows. rewrite list_sum_concat_map.
  induction Hrows as [| r h Hr _ IH]; simpl.
  - apply list_sum_map_const_zero.
  - rewrite list_sum_map_add, IH, list_sum_app.
    subst n. rewrite map_nth_seq. reflexivity.
Qed.

(* ================================================================== *)
(** ** Facts about the numpy routines *)

Lemma Qmin_either (q d : Q) : Qmin q d = q \/ Qmin q d = d.
Proof.
  unfold Qmin, GenericMinMax.gmin. destruct (q ?= d); auto.
Qed.

Lemma fold_Qmin_In (r : list Q) (q : Q) : In (fold_left Qmin r q) (q :: r).
Proof.
  revert q. induction r as [| d r IH]; intros q; simpl.
  - left. reflexivity.
  - destruct (IH (Qmin q d)) as [H | H].
    + destruct (Qmin_either q d) as [E | E]; rewrite E in *; auto.
    + right. right. exact H.
Qed.

Lemma fold_Qmin_le (r : list Q) (q : Q) :
  Forall (fun d => fold_left Qmin r q <= d) (q :: r).
Proof.
  revert q. induction r as [| d r IH]; intros q; simpl.
  - constructor; [apply Qle_refl | constructor].
  - specialize (IH (Qmin q d)). inversion IH as [| ? ? Hhd Htl]; subst.
    constructor; [| constructor].
    + eapply Qle_trans; [exact Hhd | apply Q.le_min_l].
    + eapply Qle_trans; [exact Hhd | apply Q.le_min_r].
    + exact Htl.
Qed.

Lemma np_min_spec (a : list Q) (fd : Q) :
  Np.min a = Ok fd -> In fd a /\ Forall (fun d => fd <= d) a.
Proof.
  destruct a as [| q r]; simpl; intros H; [discriminate H |].
  inversion H; subst. split; [apply fold_Qmin_In | apply fold_Qmin_le].
Qed.

Lemma diff_nonempty (t : list Q) : (2 <= length t)%nat -> Np.diff t <> [].
Proof.
  destruct t as [| a [| b r]]; simpl; intros H; try lia. discriminate.
Qed.

Lemma bool_index_app_false {A : Type} (a : list A) (m : list bool) (v : A) :
  length m = length a ->
  Np.bool_index (a ++ [v]) (m ++ [false]) = Np.bool_index a m.
Proof.
  revert m. induction a as [| u a IH]; intros [| b m] Hlen; simpl in *;
    try discriminate Hlen; [reflexivity |].
  injection Hlen as Hlen. rewrite IH by exact Hlen. reflexivity.
Qed.

Lemma combine_bool_index (P : coord * coord -> bool) (x y : list coord) :
  combine (Np.bool_index x (map P (combine x y)))
          (Np.bool_index y (map P (combine x y)))
  = filter P (combine x y).
Proof.
  revert y. induction x as [| a x IH]; intros [| b y]; simpl; try reflexivity.
  destruct (P (a, b)); simpl; rewrite IH; reflexivity.
Qed.

Lemma count_nonzero_le_size (a : ndarray nat) :
  (Np.count_nonzero a <= Np.size a)%nat.
Proof.
  unfold Np.count_nonzero, Np.size. apply filter_length_le.
Qed.

Lemma linspace_length lo hi n : length (Np.linspace lo hi n) = S n.
Proof.
  unfold Np.linspace. rewrite length_map, length_seq. reflexivity.
Qed.

Lemma linspace_nth lo hi n i :
  (i <= n)%nat ->
  nth i (Np.linspace lo hi n) 0
  == lo + inject_Z (Z.of_nat i) * ((hi - lo) / inject_Z (Z.of_nat n)).
Proof.
  intros Hi. unfold Np.linspace.
  set (f := fun i => Qred (lo + inject_Z (Z.of_nat i) * ((hi - lo) / inject_Z (Z.of_nat n)))).
  rewrite (nth_indep _ 0 (f 0%nat)) by (rewrite length_map, length_seq; lia).
  rewrite map_nth, seq_nth by lia. unfold f. simpl Nat.add. apply Qred_correct.
Qed.

Lemma linspace_increasing lo hi n :
  lo < hi -> (1 <= n)%nat -> strictly_increasing (Np.linspace lo hi n).
Proof.
  intros Hlt Hn i j [Hij Hj]. rewrite linspace_length in Hj.
  rewrite !linspace_nth by lia.
  assert (Hstep : 0 < (hi - lo) / inject_Z (Z.of_nat n)).
  { apply Qlt_shift_div_l.
    - unfold Qlt. simpl. lia.
    - rewrite Qmult_0_l. lra. }
  assert (Hinj : inject_Z (Z.of_nat i) < inject_Z (Z.of_nat j)).
  { unfold Qlt. simpl. lia. }
  apply Qplus_lt_r. apply Qmult_lt_compat_r; assumption.
Qed.

Lemma outer_edges_Ok lo hi lo' hi' :
  Np.outer_edges lo hi = Ok (lo', hi') -> lo' < hi'.
Proof.
  unfold Np.outer_edges.
  destruct (Np.Qlt_bool hi lo) eqn:Hrev; [discriminate |].
  apply Qlt_bool_false_iff in Hrev.
  destruct (Qeq_bool lo hi) eqn:Heq; intros H; inversion H; subst.
  - apply Qeq_bool_iff in Heq. lra.
  - apply Qeq_bool_neq in Heq.
    apply Qle_lteq in Hrev. destruct Hrev as [Hlt | He]; [exact Hlt | contradiction].
Qed.

Lemma outer_edges_succeeds lo hi :
  lo <= hi -> exists r, Np.outer_edges lo hi = Ok r.
Proof.
  intros Hle. unfold Np.outer_edges.
  destruct (Np.Qlt_bool hi lo) eqn:Hrev.
  - apply Qlt_bool_iff in Hrev. exfalso. apply (Qlt_not_le _ _ Hrev Hle).
  - destruct (Qeq_bool lo hi); eexists; reflexivity.
Qed.

Lemma bin_count_Ok n k : Np.bin_count n = Ok k -> (1 <= k)%nat /\ Z.of_nat k = n.
Proof.
  unfold Np.bin_count. destruct (n <? 1)%Z eqn:E; intros H; inversion H; subst.
  apply Z.ltb_ge in E. lia.
Qed.

Lemma bin_count_succeeds (q : Q) :
  0 < q -> exists k, Np.bin_count (Qceiling q) = Ok k.
Proof.
  intros Hq. unfold Np.bin_count.
  destruct (Qceiling q <? 1)%Z eqn:E; [| eexists; reflexivity].
  exfalso. apply Z.ltb_lt in E.
  pose proof (Qle_ceiling q) as Hc.
  assert (Hz : inject_Z (Qceiling q) <= 0) by (unfold Qle; simpl; lia).
  apply (Qlt_irrefl 0). eapply Qlt_le_trans; [exact Hq |].
  eapply Qle_trans; [exact Hc | exact Hz].
Qed.

Lemma histogram2d_Ok x y nx ny xr yr hist xedges yedges :
  Np.histogram2d x y nx ny xr yr = Ok (hist, xedges, yedges) ->
  exists kx ky,
    (1 <= kx)%nat /\ (1 <= ky)%nat /\
    Z.of_nat kx = nx /\ Z.of_nat ky = ny /\
    length hist = kx /\ Forall (fun r => length r = ky) hist /\
    length xedges = S kx /\ length yedges = S ky /\
    strictly_increasing xedges /\ strictly_increasing yedges.
Proof.
  unfold Np.histogram2d. intros H.
  inv_bind_as H kx Hkx. inv_bind_as H rx Hrx. destruct rx as [xlo xhi].
  inv_bind_as H ky Hky. inv_bind_as H ry Hry. destruct ry as [ylo yhi].
  inversion H; subst; clear H.
  apply bin_count_Ok in Hkx. destruct Hkx as [Hkx1 Hkx2].
  apply bin_count_Ok in Hky. destruct Hky as [Hky1 Hky2].
  apply outer_edges_Ok in Hrx. apply outer_edges_Ok in Hry.
  exists kx, ky.
  rewrite length_map, length_seq, !linspace_length.
  repeat split; try assumption.
  - apply Forall_forall. intros r Hr. apply in_map_iff in Hr.
    destruct Hr as (i & Hi & _). subst r.
    rewrite length_map, length_seq. reflexivity.
  - apply linspace_increasing; assumption.
  - apply linspace_increasing; assumption.
Qed.

Lemma transpose_shape h kx ky :
  (1 <= kx)%nat -> length h = kx -> Forall (fun r => length r = ky) h ->
  length (Np.transpose h) = ky /\ Forall (fun r => length r = kx) (Np.transpose h).
Proof.
  intros Hkx Hlen Hrows. unfold Np.transpose. split.
  - rewrite length_map, length_seq.
    destruct h as [| r h]; simpl in *; [lia |].
    inversion Hrows; assumption.
  - apply Forall_forall. intros r Hr. apply in_map_iff in Hr.
    destruct Hr as (j & Hj & _). subst r. rewrite length_map. exact Hlen.
Qed.

Lemma list_sum_transpose (h : list (list nat)) (ky : nat) :
  h <> [] -> Forall (fun r => length r = ky) h ->
  list_sum (concat (Np.transpose h)) = list_sum (concat h).
Proof.
  intros Hne Hrows. unfold Np.transpose.
  assert (Hhd : length (hd [] h) = ky).
  { destruct h as [| r h]; [contradiction |]. inversion Hrows; assumption. }
  rewrite Hhd. apply list_sum_columns. exact Hrows.
Qed.

Lemma size_positive rows kx ky :
  (1 <= kx)%nat -> (1 <= ky)%nat ->
  length rows = ky -> Forall (fun r : list nat => length r = kx) rows ->
  Np.size (Arr2 rows) <> 0%nat.
Proof.
  intros Hkx Hky Hlen Hrows. unfold Np.size. simpl.
  destruct rows as [| r rows]; simpl in *; [lia |].
  inversion Hrows; subst. rewrite length_app. lia.
Qed.

(** One sample falls into one bin. *)
Lemma list_sum_indicator (o : option nat) (a k : nat) :
  list_sum (map (fun i => if Np.is_bin o i then 1 else 0)%nat (seq a k))
  = match o with
    | Some i0 => if (Nat.leb a i0 && Nat.ltb i0 (a + k))%bool then 1%nat else 0%nat
    | None => 0%nat
    end.
Proof.
  destruct o as [i0 |]; simpl.
  - revert a. induction k as [| k IH]; intros a; simpl.
    + destruct (Nat.leb a i0) eqn:E1; destruct (Nat.ltb i0 (a + 0)) eqn:E2;
        simpl; try reflexivity.
      apply Nat.leb_le in E1. apply Nat.ltb_lt in E2. lia.
    + rewrite IH.
      destruct (Nat.eqb i0 a) eqn:E0;
        destruct (Nat.leb (S a) i0) eqn:E1;
        destruct (Nat.ltb i0 (S a + k)) eqn:E2;
        destruct (Nat.leb a i0) eqn:E3;
        destruct (Nat.ltb i0 (a + S k)) eqn:E4; simpl; try reflexivity; exfalso;
        repeat match goal with
               | H : Nat.eqb _ _ = true |- _ => apply Nat.eqb_eq in H
               | H : Nat.eqb _ _ = false |- _ => apply Nat.eqb_neq in H
               | H : Nat.leb _ _ = true |- _ => apply Nat.leb_le in H
               | H : Nat.leb _ _ = false |- _ => apply Nat.leb_gt in H
               | H : Nat.ltb _ _ = true |- _ => apply Nat.ltb_lt in H
               | H : Nat.ltb _ _ = false |- _ => apply Nat.ltb_ge in H
               end; lia.
  - apply list_sum_map_const_zero.
Qed.

(** The counts of all bins add up to the number of samples, when every
    sample has a bin on each axis. *)
Lemma histogram2d_counts_total (bx bv : coord -> option nat) (kx ky : nat)
    (l : list (coord * coord)) :
  Forall (fun p => (exists i, bx (fst p) = Some i /\ (i < kx)%nat)
                   /\ (exists j, bv (snd p) = Some j /\ (j < ky)%nat)) l ->
  list_sum (concat (map (fun i =>
                           map (fun j =>
                                  length (filter (fun p => Np.is_bin (bx (fst p)) i
                                                           && Np.is_bin (bv (snd p)) j) l))
                               (seq 0 ky))
                        (seq 0 kx)))
  = length l.
Proof.
  intros Hall. rewrite list_sum_concat_map.
  induction Hall as [| p l [(i0 & Hi0 & Hlt0) (j0 & Hj0 & Hlt1)] _ IH].
  - simpl. erewrite list_sum_map_ext.
    + apply list_sum_map_const_zero.
    + intros i _. simpl. apply list_sum_map_const_zero.
  - erewrite list_sum_map_ext.
    2: { intros i _.
         erewrite list_sum_map_ext.
         2: { intros j _. cbn [filter].
              instantiate (1 := fun j =>
                ((if Np.is_bin (bx (fst p)) i && Np.is_bin (bv (snd p)) j then 1 else 0)
                 + length (filter (fun p => Np.is_bin (bx (fst p)) i
                                            && Np.is_bin (bv (snd p)) j) l))%nat).
              cbv beta.
              destruct (Np.is_bin (bx (fst p)) i && Np.is_bin (bv (snd p)) j);
                reflexivity. }
         rewrite list_sum_map_add. reflexivity. }
    cbv beta. rewrite list_sum_map_add, IH.
    assert (Hone : list_sum
                     (map (fun i =>
                             list_sum
                               (map (fun j =>
                                       if Np.is_bin (bx (fst p)) i && Np.is_bin (bv (snd p)) j
                                       then 1 else 0)%nat
                                    (seq 0 ky)))
                          (seq 0 kx)) = 1%nat).
    { erewrite list_sum_map_ext.
      2: { intros i _.
           instantiate (1 := fun i => (if Np.is_bin (bx (fst p)) i then 1 else 0)%nat).
           cbv beta. destruct (Np.is_bin (bx (fst p)) i); cbn [andb].
           - rewrite list_sum_indicator, Hj0. cbn [Nat.leb andb Nat.add].
             destruct (Nat.ltb j0 ky) eqn:E; [reflexivity |].
             apply Nat.ltb_ge in E. lia.
           - apply list_sum_map_const_zero. }
      rewrite list_sum_indicator, Hi0. cbn [Nat.leb andb Nat.add].
      destruct (Nat.ltb i0 kx) eqn:E; [reflexivity |].
      apply Nat.ltb_ge in E. lia. }
    rewrite Hone. reflexivity.
Qed.

(** A coordinate inside the half-open range has a bin. *)
Lemma bin_of_in_half_open lo hi lo' hi' k c :
  Np.in_half_open lo hi c = true ->
  Np.outer_edges lo hi = Ok (lo', hi') ->
  (1 <= k)%nat ->
  exists i, Np.bin_of lo' hi' k c = Some i /\ (i < k)%nat.
Proof.
  intros Hin Hedges Hk. destruct c as [q |]; simpl in Hin; [| discriminate Hin].
  apply andb_true_iff in Hin. destruct Hin as [Hlo Hhi].
  apply Qlt_bool_iff in Hhi.
  pose proof Hlo as Hlo'. apply Qle_bool_iff in Hlo'.
  assert (Hlt : lo < hi) by (eapply Qle_lt_trans; eassumption).
  unfold Np.outer_edges in Hedges.
  assert (Hrev : Np.Qlt_bool hi lo = false)
    by (apply Qlt_bool_false_iff; apply Qlt_le_weak; exact Hlt).
  assert (Hne : Qeq_bool lo hi = false).
  { destruct (Qeq_bool lo hi) eqn:E; [| reflexivity].
    apply Qeq_bool_iff in E. rewrite E in Hlt. exfalso. apply (Qlt_irrefl hi Hlt). }
  rewrite Hrev, Hne in Hedges. inversion Hedges; subst lo' hi'.
  unfold Np.bin_of. rewrite Hlo.
  assert (Hle : Qle_bool q hi = true) by (apply Qle_bool_iff; apply Qlt_le_weak; exact Hhi).
  rewrite Hle. cbn [andb].
  eexists. split; [reflexivity |]. lia.
Qed.

(* ================================================================== *)
(** ** Facts about the Python built-ins *)

Lemma ratio_bounds (n d : nat) :
  (n <= S d)%nat ->
  0 <= Qred (count_to_Q n / count_to_Q (S d)) <= 1.
Proof.
  intros Hle. rewrite Qred_correct.
  assert (Hpos : 0 < count_to_Q (S d)) by (unfold count_to_Q, Qlt; simpl; lia).
  split.
  - apply Qle_shift_div_l; [exact Hpos |].
    rewrite Qmult_0_l. apply count_to_Q_nonneg.
  - apply Qle_shift_div_r; [exact Hpos |].
    rewrite Qmult_1_l. unfold count_to_Q, Qle. simpl. lia.
Qed.

Lemma min_one_ratio_bounds (n d : nat) : 0 <= Py.min_one_ratio n d <= 1.
Proof.
  unfold Py.min_one_ratio. destruct d as [| d].
  - split; [unfold Qle; simpl; lia | apply Qle_refl].
  - cbv zeta. destruct (Qlt_le_dec _ 1) as [Hlt | Hge].
    + split; [| apply Qlt_le_weak; exact Hlt].
      rewrite Qred_correct.
      apply Qle_shift_div_l.
      * unfold Qlt; simpl; lia.
      * rewrite Qmult_0_l. unfold Qle; simpl; lia.
    + split; [unfold Qle; simpl; lia | apply Qle_refl].
Qed.



(* ================================================================== *)
(** ** The accumulator *)

Lemma validatekeyword__arena_size_Ok kwv dims a is_2d :
  validatekeyword__arena_size kwv dims = Ok (a, is_2d) ->
  (dims = 1%nat /\ is_2d = false /\ exists w, a = Extent1 w) \/
  (dims = 2%nat /\ is_2d = true /\ exists w h, a = Extent2 w h).
Proof.
  unfold validatekeyword__arena_size. intros H.
  destruct kwv as [[w | [| w [| h [| z l]]] |] |];
    destruct dims as [| [| [| d]]];
    try discriminate H; inversion H; subst;
    first [ left; repeat split; eexists; reflexivity
          | right; repeat split; do 2 eexists; reflexivity ].
Qed.

Lemma limits_eq_None_array l :
  (2 <= length l)%nat ->
  limits_eq_None (LimArray l)
  = Raise (ValueError "The truth value of an array with more than one element is ambiguous. Use a.any() or a.all()").
Proof.
  intros H. unfold limits_eq_None.
  destruct (2 <=? length l)%nat eqn:E; [reflexivity |].
  apply Nat.leb_gt in E. lia.
Qed.

(** What a successful call of [accumulatespatial] went through. *)
Lemma accumulatespatial_Ok pos kw h e :
  accumulatespatial pos kw = Ok (h, e) ->
  let bw := get (kw_bin_width kw) Default.bin_width in
  let lim := get (kw_limits kw) LimNone in
  ~ bw == 0 /\
  ((exists x w lims hist edges,
       pos = [x] /\
       validatekeyword__arena_size (kw_arena_size kw) 1 = Ok (Extent1 w, false) /\
       limits_1d x lim = Ok lims /\
       Np.histogram x (FloatCount (Qceiling (w / bw))) (fst lims) (snd lims)
       = Ok (hist, edges) /\
       h = Arr1 hist /\ e = Arr1 edges)
   \/
   (exists x y w ht lims hist xedges yedges,
       pos = [x; y] /\
       validatekeyword__arena_size (kw_arena_size kw) 2 = Ok (Extent2 w ht, true) /\
       limits_2d x y lim = Ok lims /\
       Np.histogram2d (Np.bool_index x (in_range_2d lims x y))
                      (Np.bool_index y (in_range_2d lims x y))
                      (Qceiling (w / bw)) (Qceiling (ht / bw)) (fst lims) (snd lims)
       = Ok (hist, xedges, yedges) /\
       h = Arr2 (Np.transpose hist) /\ e = Arr2 [yedges; xedges])).
Proof.
  unfold accumulatespatial. intros H.
  destruct (negb (Nat.eqb (length pos) 1 || Nat.eqb (length pos) 2)); [discriminate H |].
  destruct (negb (limits_type_ok _)); [discriminate H |].
  destruct (validatekeyword__arena_size _ _) as [[a is_2d] | err] eqn:Hval;
    [| discriminate H].
  cbn [bind] in H.
  unfold num_bins_of in H.
  destruct (Qeq_bool (get (kw_bin_width kw) Default.bin_width) 0) eqn:Hbw;
    [discriminate H |].
  cbn [bind] in H.
  cbv zeta. split.
  { intros Heq. apply Qeq_bool_iff in Heq. congruence. }
  apply validatekeyword__arena_size_Ok in Hval as Hcases.
  destruct Hcases as [(Hd & His & w & Ha) | (Hd & His & w & ht & Ha)]; subst a is_2d.
  - left.
    destruct pos as [| x [| y r]]; try discriminate Hd.
    cbn [row nth_error bind] in H.
    inv_bind_as H lims Hlims.
    inv_bind_as H res Hres. destruct res as [hist edges].
    inversion H; subst.
    exists x, w, lims, hist, edges. repeat split; assumption.
  - right.
    destruct pos as [| x [| y [| z r]]]; try discriminate Hd.
    cbn [row nth_error bind] in H.
    inv_bind_as H lims Hlims.
    inv_bind_as H res Hres. destruct res as [[hist xedges] yedges].
    inversion H; subst.
    exists x, y, w, ht, lims, hist, xedges, yedges. repeat split; assumption.
Qed.

Lemma accumulatespatial_with_shape pos kw shape :
  accumulatespatial pos (with_shape kw shape) = accumulatespatial pos kw.
Proof. reflexivity. Qed.

(** On one row of positions the accumulator never returns: what passes
    the checks reaches [np.histogram] with a float count. *)
Lemma accumulatespatial_1d_raises x kw :
  exists err, accumulatespatial [x] kw = Raise err.
Proof.
  destruct (accumulatespatial [x] kw) as [[h e] | err] eqn:H; [| exists err; reflexivity].
  apply accumulatespatial_Ok in H. cbv zeta in H.
  destruct H as [_ [(x' & w & lims & hist & edges & _ & _ & _ & Hh & _)
                   | (x' & y' & w & ht & lims & hist & xe & ye & Hpos & _)]].
  - unfold Np.histogram in Hh. discriminate Hh.
  - discriminate Hpos.
Qed.

Lemma in_range_2d_app lims x y a b :
  length x = length y ->
  in_range_2d lims (x ++ [a]) (y ++ [b])
  = in_range_2d lims x y
    ++ [Np.in_half_open (fst (fst lims)) (snd (fst lims)) a
        && Np.in_half_open (fst (snd lims)) (snd (snd lims)) b].
Proof.
  intros Hlen. unfold in_range_2d.
  rewrite combine_snoc by exact Hlen. rewrite map_app. reflexivity.
Qed.

Lemma in_range_2d_length lims x y :
  length x = length y -> length (in_range_2d lims x y) = length x.
Proof.
  intros Hlen. unfold in_range_2d. rewrite length_map, length_combine. lia.
Qed.

(** In the 2D case, with explicit limits, a sample with a coordinate
    outside [[min, max)] leaves the result unchanged. *)
Lemma accumulatespatial_2d_ignores_outside x y a b kw l :
  length x = length y ->
  kw_limits kw = Some (LimTuple l) ->
  Np.in_half_open (nth 0 l 0) (nth 1 l 0) a
  && Np.in_half_open (nth 2 l 0) (nth 3 l 0) b = false ->
  accumulatespatial [x ++ [a]; y ++ [b]] kw = accumulatespatial [x; y] kw.
Proof.
  intros Hlen Hlim Hout. unfold accumulatespatial. rewrite Hlim.
  cbn [length Nat.eqb orb negb get limits_type_ok].
  destruct (validatekeyword__arena_size _ _) as [[ar is_2d] | err] eqn:Hval;
    [| reflexivity].
  apply validatekeyword__arena_size_Ok in Hval.
  destruct Hval as [(Hd & _) | (_ & His & _)]; [discriminate Hd | subst is_2d].
  cbn [bind]. destruct (num_bins_of _ _) as [nb | err]; [| reflexivity].
  cbn [bind row nth_error].
  unfold limits_2d. cbn [limits_eq_None bind limits_elems].
  destruct (negb (Nat.eqb (length l) 4)); [reflexivity |].
  cbn [bind].
  rewrite in_range_2d_app by exact Hlen.
  cbn [fst snd]. rewrite Hout.
  rewrite !bool_index_app_false by (rewrite in_range_2d_length by exact Hlen; congruence).
  reflexivity.
Qed.

(** In the 2D case the counts add up to the number of samples that have
    both coordinates inside the half-open limits: no other sample
    contributes, and each of these is counted once. *)
Lemma accumulatespatial_2d_total x y kw h e :
  accumulatespatial [x; y] kw = Ok (h, e) ->
  exists lims,
    limits_2d x y (get (kw_limits kw) LimNone) = Ok lims /\
    list_sum (nd_flat h) = length (filter (fun b : bool => b) (in_range_2d lims x y)).
Proof.
  intros H. apply accumulatespatial_Ok in H. cbv zeta in H.
  destruct H as [_ [(x' & w & lims & hist & edges & Hpos & _)
                   | (x' & y' & w & ht & lims & hist & xe & ye & Hpos & _ & Hl & Hh & -> & _)]];
    [discriminate Hpos |].
  inversion Hpos; subst x' y'. clear Hpos.
  exists lims. split; [exact Hl |].
  pose proof Hh as Hshape. apply histogram2d_Ok in Hshape.
  destruct Hshape as (kx & ky & Hkx & Hky & _ & _ & Hlen & Hrows & _).
  cbn [nd_flat]. rewrite (list_sum_transpose hist ky).
  2: { intros ->. simpl in Hlen. lia. }
  2: exact Hrows.
  unfold Np.histogram2d in Hh.
  inv_bind_as Hh kx' Hkx'. inv_bind_as Hh rx Hrx. destruct rx as [xlo xhi].
  inv_bind_as Hh ky' Hky'. inv_bind_as Hh ry Hry. destruct ry as [ylo yhi].
  inversion Hh; subst hist xe ye; clear Hh.
  apply bin_count_Ok in Hkx'. apply bin_count_Ok in Hky'.
  unfold in_range_2d. rewrite combine_bool_index, filter_map_length.
  apply histogram2d_counts_total.
  apply Forall_forall. intros p Hp. apply filter_In in Hp. destruct Hp as [_ Hp].
  apply andb_true_iff in Hp. destruct Hp as [Hpx Hpy].
  split.
  - apply (bin_of_in_half_open _ _ _ _ kx' _ Hpx Hrx). lia.
  - apply (bin_of_in_half_open _ _ _ _ ky' _ Hpy Hry). lia.
Qed.

(** The accumulator returns on two rows of positions, a positive arena
    size and bin width, and four limits in order. *)
Lemma accumulatespatial_2d_succeeds x y kw w a b c d :
  kw_arena_size kw = Some (SizeScalar w) ->
  0 < w ->
  0 < get (kw_bin_width kw) Default.bin_width ->
  kw_limits kw = Some (LimTuple [a; b; c; d]) ->
  a <= b -> c <= d ->
  exists h e, accumulatespatial [x; y] kw = Ok (h, e).
Proof.
  intros Hsize Hw Hbw Hlim Hab Hcd.
  unfold accumulatespatial. rewrite Hsize, Hlim.
  cbn [length Nat.eqb orb negb get limits_type_ok validatekeyword__arena_size bind].
  unfold num_bins_of.
  destruct (Qeq_bool (get (kw_bin_width kw) Default.bin_width) 0) eqn:E.
  { apply Qeq_bool_iff in E. rewrite E in Hbw. exfalso. apply (Qlt_irrefl 0 Hbw). }
  cbn [bind row nth_error].
  unfold limits_2d.
  cbn [limits_eq_None bind limits_elems length Nat.eqb negb nth fst snd].
  unfold Np.histogram2d. cbn [fst snd].
  destruct (bin_count_succeeds _ (Qdiv_pos _ _ Hw Hbw)) as [k Hk]. rewrite Hk.
  destruct (outer_edges_succeeds a b Hab) as [[xlo xhi] Hx].
  destruct (outer_edges_succeeds c d Hcd) as [[ylo yhi] Hy].
  cbn [bind]. rewrite Hx. cbn [bind]. rewrite Hy. cbn [bind].
  eexists. eexists. reflexivity.
Qed.

(* ================================================================== *)
(** ** The occupancy mapper *)

Lemma spatial_occupancy_Ok time position speed kw m c e :
  spatial_occupancy time position speed kw = Ok (m, c, e) ->
  exists counts fd,
    length position = 2%nat /\
    accumulatespatial (kept position speed kw) kw = Ok (counts, e) /\
    Np.min (Np.diff time) = Ok fd /\
    m = {| ma_data := nd_map (fun n => Qred (count_to_Q n * fd)) counts;
           ma_mask := nd_map (fun n => Np.Qlt_bool (count_to_Q n) (1 # 1000)) counts |} /\
    0 <= c <= 1.
Proof.
  unfold spatial_occupancy. intros H.
  destruct (negb (Nat.eqb (length position) 1 || Nat.eqb (length position) 2))
    eqn:Hdims; [discriminate H |].
  destruct (negb (Nat.eqb (speed_ndim speed) 1)); [discriminate H |].
  destruct (negb (Nat.eqb (length (speed_flat speed)) (length (hd [] position))));
    [discriminate H |].
  destruct (kw_arena_size kw) as [arena_size |]; [| discriminate H].
  inv_bind H. inv_bind H. inv_bind H. inv_bind H. destruct a2 as [counts edges].
  inv_bind H. inv_bind H.
  inversion H; subst; clear H.
  exists counts, a2.
  assert (Hlen : length position = 2%nat).
  { destruct position as [| x0 [| y1 [| z r]]]; simpl in *; try discriminate; reflexivity. }
  split; [exact Hlen |].
  split.
  { destruct position as [| x0 [| y1 [| z r]]]; simpl in Hlen; try discriminate Hlen.
    simpl in Ha0, Ha1. inversion Ha0; inversion Ha1; subst. exact Ha2. }
  split; [exact Ha3 |].
  split; [reflexivity |].
  destruct (Py.str_in _ Default.shapes_square).
  - pose proof (count_nonzero_le_size counts) as Hle.
    destruct (Np.size counts) as [| k] eqn:Hsize; [discriminate Ha4 |].
    inversion Ha4; subst. apply ratio_bounds. exact Hle.
  - destruct (Py.str_in _ Default.shapes_circle).
    + inv_bind_as Ha4 radius Hradius.
      destruct e as [v | rows]; [discriminate Ha4 |].
      inv_bind Ha4. inv_bind Ha4.
      destruct radius as [radius |]; [| discriminate Ha4].
      inversion Ha4; subst. apply min_one_ratio_bounds.
    + destruct (Py.str_in _ Default.shapes_linear); discriminate Ha4.
Qed.

Lemma spatial_occupancy_one_row time x speed kw :
  exists e, spatial_occupancy time [x] speed kw = Raise e.
Proof.
  destruct (spatial_occupancy time [x] speed kw) as [[[m c] e] | e] eqn:H.
  - apply spatial_occupancy_Ok in H.
    destruct H as (counts & fd & Hlen & _). discriminate Hlen.
  - exists e. reflexivity.
Qed.

(** What the call does once the shape tag is known to be linear or
    unrecognised: an error of the earlier steps, or the error [err] of the
    dispatch. *)
Lemma spatial_occupancy_no_coverage time position speed kw shape err :
  Py.str_in (Py.lower shape) Default.shapes_square = false ->
  Py.str_in (Py.lower shape) Default.shapes_circle = false ->
  (if Py.str_in (Py.lower shape) Default.shapes_linear
   then NotImplementedError "Spatial Occupancy does not currently support linear arenas"
   else NotImplementedError ("Arena shape '" ++ shape ++ "' not understood")) = err ->
  (exists e, spatial_occupancy time position speed (with_shape kw (Some shape)) = Raise e) /\
  (forall r,
      spatial_occupancy time position speed (with_shape kw (Some "square"%string)) = Ok r ->
      spatial_occupancy time position speed (with_shape kw (Some shape)) = Raise err).
Proof.
  intros Hsq Hci Herr.
  unfold spatial_occupancy.
  change (kw_arena_size (with_shape kw (Some shape))) with (kw_arena_size kw).
  change (kw_arena_size (with_shape kw (Some "square"%string))) with (kw_arena_size kw).
  change (kw_bin_width (with_shape kw (Some shape))) with (kw_bin_width kw).
  change (kw_speed_cutoff (with_shape kw (Some shape))) with (kw_speed_cutoff kw).
  change (kw_speed_cutoff (with_shape kw (Some "square"%string))) with (kw_speed_cutoff kw).
  change (kw_debug (with_shape kw (Some shape))) with (kw_debug kw).
  change (kw_debug (with_shape kw (Some "square"%string))) with (kw_debug kw).
  change (get (kw_arena_shape (with_shape kw (Some shape))) Default.shape) with shape.
  rewrite Hsq, Hci.
  destruct (negb (Nat.eqb (length position) 1 || Nat.eqb (length position) 2)).
  { split; [eexists; reflexivity | intros r H; discriminate H]. }
  destruct (negb (Nat.eqb (speed_ndim speed) 1)).
  { split; [eexists; reflexivity | intros r H; discriminate H]. }
  destruct (negb (Nat.eqb (length (speed_flat speed)) (length (hd [] position)))).
  { split; [eexists; reflexivity | intros r H; discriminate H]. }
  destruct (kw_arena_size kw) as [arena_size |].
  2: { split; [eexists; reflexivity | intros r H; discriminate H]. }
  destruct (debug_header _ time) as [u | e]; cbn [bind].
  2: { split; [eexists; reflexivity | intros r H; discriminate H]. }
  destruct (row 0 position) as [x0 | e]; cbn [bind].
  2: { split; [eexists; reflexivity | intros r H; discriminate H]. }
  destruct (row 1 position) as [y1 | e]; cbn [bind].
  2: { split; [eexists; reflexivity | intros r H; discriminate H]. }
  rewrite !accumulatespatial_with_shape.
  destruct (accumulatespatial _ kw) as [[counts edges] | e]; cbn [bind].
  2: { split; [eexists; reflexivity | intros r H; discriminate H]. }
  destruct (Np.min (Np.diff time)) as [fd | e]; cbn [bind].
  2: { split; [eexists; reflexivity | intros r H; discriminate H]. }
  subst err.
  destruct (Py.str_in (Py.lower shape) Default.shapes_linear); cbn [bind];
    (split; [eexists; reflexivity | intros r H; reflexivity]).
Qed.

Lemma min_positive_delta_all_positive (time : list Q) (fd : Q) :
  Forall (fun d => 0 < d) (Np.diff time) ->
  Np.min (Np.diff time) = Ok fd ->
  min_positive_delta time = Some fd.
Proof.
  intros Hpos Hmin. unfold min_positive_delta.
  rewrite filter_all.
  - destruct (Np.diff time) as [| q r]; simpl in *; [discriminate Hmin |].
    inversion Hmin. reflexivity.
  - eapply Forall_impl; [| exact Hpos].
    intros d Hd. apply Qlt_bool_iff. exact Hd.
Qed.

(** One bin: its mask bit against its scaled time, when a frame lasts at
    least 0.001. *)
Lemma mask_bit_short_time (n : nat) (fd : Q) :
  1 # 1000 <= fd ->
  Np.Qlt_bool (count_to_Q n) (1 # 1000) = true
  <-> Qred (count_to_Q n * fd) < 1 # 1000.
Proof.
  intros Hfd. rewrite Qlt_bool_iff, Qred_correct, count_to_Q_zero.
  split.
  - intros ->. unfold count_to_Q. simpl. rewrite Qmult_0_l. reflexivity.
  - intros Hlt. destruct n as [| n]; [reflexivity |]. exfalso.
    assert (H1 : 1 <= count_to_Q (S n)) by (apply count_to_Q_pos; discriminate).
    assert (H2 : 0 <= fd) by (eapply Qle_trans; [| exact Hfd]; unfold Qle; simpl; lia).
    assert (H3 : 1 * fd <= count_to_Q (S n) * fd) by (apply Qmult_le_compat_r; assumption).
    rewrite Qmult_1_l in H3.
    apply (Qlt_irrefl (1 # 1000)).
    eapply Qle_lt_trans; [exact Hfd |].
    eapply Qle_lt_trans; [exact H3 | exact Hlt].
Qed.

(** [spatial_occupancy] returns on two rows of positions with a speed
    sample for each position, two timestamps at least, a positive arena
    size and bin width, four limits in order and a square tag. *)
Lemma spatial_occupancy_succeeds time x y speed kw w a b c d :
  speed_ndim speed = 1%nat ->
  length (speed_flat speed) = length x ->
  kw_arena_size kw = Some (SizeScalar w) ->
  0 < w ->
  0 < get (kw_bin_width kw) Default.bin_width ->
  kw_limits kw = Some (LimTuple [a; b; c; d]) ->
  a <= b -> c <= d ->
  (2 <= length time)%nat ->
  Py.str_in (Py.lower (get (kw_arena_shape kw) Default.shape)) Default.shapes_square = true ->
  exists m cov e, spatial_occupancy time [x; y] speed kw = Ok (m, cov, e).
Proof.
  intros Hndim Hlen Hsize Hw Hbw Hlim Hab Hcd Htime Hshape.
  unfold spatial_occupancy.
  cbn [length Nat.eqb orb negb hd]. rewrite Hndim, Hlen, !Nat.eqb_refl, Hsize.
  cbn [Nat.eqb negb].
  assert (Hmin : exists fd, Np.min (Np.diff time) = Ok fd).
  { pose proof (diff_nonempty time Htime) as Hd.
    destruct (Np.diff time) as [| q r]; [contradiction |]. eexists. reflexivity. }
  destruct Hmin as [fd Hfd].
  assert (Hdbg : debug_header (get (kw_debug kw) false) time = Ok tt).
  { unfold debug_header. destruct (get (kw_debug kw) false); [| reflexivity].
    destruct time as [| t0 time]; [simpl in Htime; lia |].
    rewrite Hfd. reflexivity. }
  rewrite Hdbg. cbn [bind row nth_error].
  destruct (accumulatespatial_2d_succeeds
              (Np.bool_index x (good speed kw)) (Np.bool_index y (good speed kw))
              kw w a b c d Hsize Hw Hbw Hlim Hab Hcd) as (h & e & Hacc).
  unfold good in Hacc. rewrite Hacc. cbn [bind]. rewrite Hfd. cbn [bind].
  rewrite Hshape.
  apply accumulatespatial_Ok in Hacc. cbv zeta in Hacc.
  destruct Hacc as [_ [(x' & w' & lims & hist & edges & Hpos & _)
                      | (x' & y' & w' & ht & lims & hist & xe & ye & _ & _ & _ & Hh & -> & _)]];
    [discriminate Hpos |].
  apply histogram2d_Ok in Hh.
  destruct Hh as (kx & ky & Hkx & Hky & _ & _ & Hl & Hrows & _).
  destruct (transpose_shape hist kx ky Hkx Hl Hrows) as [Ht1 Ht2].
  pose proof (size_positive _ kx ky Hkx Hky Ht1 Ht2) as Hsz.
  destruct (Np.size (Arr2 (Np.transpose hist))) as [| n] eqn:Hn; [contradiction |].
  cbn [bind]. eexists. eexists. eexists. reflexivity.
Qed.

(* ================================================================== *)
(** ** C1: dimensionality of the position array *)

(** C1.  The claim: a 1xT position array with matching time and speed and
    a valid configuration yields a 1D occupancy map, and dimensionality 0
    or 3 raises an invalid-shape error.  The code: a position array of one
    row passes the dimensionality check and then fails on [position[1,:]]
    (line 115), so every call with a 1xT array raises and none returns a
    map; the sample call raises [IndexError].  Zero or three rows raise
    [ValueError], as claimed. *)
Theorem C1_one_row_position_raises :
  (forall time x speed kw,
      exists e, spatial_occupancy time [x] speed kw = Raise e) /\
  spatial_occupancy [0; 1; 2] [Sample.vals [1; 2; 3]]
                    (Sample.speed1 [1; 1; 1]) (Sample.kw None None)
    = Raise (IndexError "index is out of bounds for axis 0") /\
  (forall time speed kw,
      exists msg, spatial_occupancy time [] speed kw = Raise (ValueError msg)) /\
  (forall time x y z speed kw,
      exists msg, spatial_occupancy time [x; y; z] speed kw = Raise (ValueError msg)).
Proof.
  split; [exact spatial_occupancy_one_row |].
  split; [vm_compute; reflexivity |].
  split.
  - intros. eexists. reflexivity.
  - intros. eexists. reflexivity.
Qed.

(* ================================================================== *)
(** ** C2: the mask *)

(** C2, the claim refuted: at 2000 frames a second a bin visited once
    holds 0.0005 time units, below 0.001, and is not masked. *)
Lemma C2_counterexample :
  exists m c e,
    spatial_occupancy [0; 1 # 2000; 2 # 2000] [Sample.xs; Sample.ys]
                      (Sample.speed1 [1; 1; 1]) (Sample.kw None None)
    = Ok (m, c, e) /\
    ~ mask_marks_short_times m.
Proof.
  eexists. eexists. eexists. split.
  - vm_compute. reflexivity.
  - unfold mask_marks_short_times. simpl. intros H.
    inversion H as [| b v bs vs Hhd Htl]; subst.
    assert (Hlt : (1 # 2000) < (1 # 1000)) by reflexivity.
    apply Hhd in Hlt. discriminate Hlt.
Qed.

(** C2, amended.  The mask of the returned map is true exactly at the bins
    whose frame count is below 0.001, that is at the bins with no frame at
    all; it is the mask of the claim whenever a frame lasts 0.001 time
    units or more. *)
Theorem C2_mask_marks_unvisited_bins time position speed kw m c e :
  spatial_occupancy time position speed kw = Ok (m, c, e) ->
  exists counts fd,
    accumulatespatial (kept position speed kw) kw = Ok (counts, e) /\
    Np.min (Np.diff time) = Ok fd /\
    ma_data m = nd_map (fun n => Qred (count_to_Q n * fd)) counts /\
    Forall2 (fun (b : bool) (n : nat) =>
               (b = true <-> count_to_Q n < 1 # 1000) /\ (b = true <-> n = 0%nat))
            (nd_flat (ma_mask m)) (nd_flat counts) /\
    (1 # 1000 <= fd -> mask_marks_short_times m).
Proof.
  intros H. apply spatial_occupancy_Ok in H.
  destruct H as (counts & fd & _ & Hacc & Hfd & Hm & _).
  exists counts, fd. subst m. cbn [ma_data ma_mask].
  repeat split; try assumption.
  - rewrite nd_flat_map. apply Forall2_map_l.
    intros n. rewrite Qlt_bool_iff, count_to_Q_zero. tauto.
  - intros Hge. unfold mask_marks_short_times. cbn [ma_data ma_mask].
    rewrite !nd_flat_map. apply Forall2_map_map.
    intros n. apply mask_bit_short_time. exact Hge.
Qed.

Lemma C2_witness :
  exists counts fd,
    accumulatespatial
      (kept [Sample.xs; Sample.ys] (Sample.speed1 [1; 1; 1]) (Sample.kw None None))
      (Sample.kw None None) = Ok (counts, Arr2 [[0; 5; 10]; [0; 5; 10]]) /\
    Np.min (Np.diff [0; 1; 2]) = Ok fd /\
    Arr2 [[1; 0]; [1; 0]] = nd_map (fun n => Qred (count_to_Q n * fd)) counts /\
    Forall2 (fun (b : bool) (n : nat) =>
               (b = true <-> count_to_Q n < 1 # 1000) /\ (b = true <-> n = 0%nat))
            [false; true; false; true] (nd_flat counts) /\
    (1 # 1000 <= fd ->
     mask_marks_short_times
       {| ma_data := Arr2 [[1; 0]; [1; 0]];
          ma_mask := Arr2 [[false; true]; [false; true]] |}).
Proof.
  apply (C2_mask_marks_unvisited_bins
           [0; 1; 2] [Sample.xs; Sample.ys] (Sample.speed1 [1; 1; 1]) (Sample.kw None None)
           {| ma_data := Arr2 [[1; 0]; [1; 0]];
              ma_mask := Arr2 [[false; true]; [false; true]] |}
           (1 # 2) (Arr2 [[0; 5; 10]; [0; 5; 10]])).
  vm_compute. reflexivity.
Defined.

(* ================================================================== *)
(** ** C3: the inclusion mask and the histogram *)

(** C3, the claim refuted: in the 2D case the histogram is taken over the
    filtered coordinates.  With limits (0, 10, 0, 10) the sample (10, 10)
    is dropped by the mask, while the histogram of the unfiltered arrays
    over the same range counts it in the last bin. *)
Lemma C3_counterexample :
  exists h e hist xedges yedges,
    accumulatespatial [Sample.xs; Sample.ys]
                      (Sample.kw None (Some (LimTuple [0; 10; 0; 10])))
    = Ok (h, e) /\
    Np.histogram2d Sample.xs Sample.ys 2 2 (0, 10) (0, 10)
    = Ok (hist, xedges, yedges) /\
    h <> Arr2 (Np.transpose hist).
Proof.
  eexists. eexists. eexists. eexists. eexists.
  split; [vm_compute; reflexivity |].
  split; [vm_compute; reflexivity |].
  vm_compute. discriminate.
Qed.

(** C3, amended.  In the 2D case the inclusion mask is computed and
    applied: the histogram is taken over the coordinates the mask selects,
    with the declared range, then transposed, and the edges are returned
    as [[yedges, xedges]].  The counts add up to the number of samples
    the mask selects. *)
Theorem C3_histogram_2d_over_filtered x y kw h e :
  accumulatespatial [x; y] kw = Ok (h, e) ->
  exists w ht lims hist xedges yedges,
    validatekeyword__arena_size (kw_arena_size kw) 2 = Ok (Extent2 w ht, true) /\
    limits_2d x y (get (kw_limits kw) LimNone) = Ok lims /\
    Np.histogram2d (Np.bool_index x (in_range_2d lims x y))
                   (Np.bool_index y (in_range_2d lims x y))
                   (Qceiling (w / get (kw_bin_width kw) Default.bin_width))
                   (Qceiling (ht / get (kw_bin_width kw) Default.bin_width))
                   (fst lims) (snd lims)
    = Ok (hist, xedges, yedges) /\
    h = Arr2 (Np.transpose hist) /\
    e = Arr2 [yedges; xedges] /\
    list_sum (nd_flat h) = length (filter (fun b : bool => b) (in_range_2d lims x y)).
Proof.
  intros H.
  destruct (accumulatespatial_2d_total x y kw h e H) as (lims' & Hl' & Htotal).
  apply accumulatespatial_Ok in H. cbv zeta in H.
  destruct H as [_ [(x' & w & lims & hist & edges & Hpos & _)
                   | (x' & y' & w & ht & lims & hist & xe & ye & Hpos & Hval & Hl & Hh & Hh' & He)]].
  - discriminate Hpos.
  - inversion Hpos; subst x' y'.
    rewrite Hl in Hl'. inversion Hl'; subst lims'.
    exists w, ht, lims, hist, xe, ye. repeat split; assumption.
Qed.

Lemma C3_witness :
  exists w ht lims hist xedges yedges,
    validatekeyword__arena_size (Some (SizeScalar 10)) 2 = Ok (Extent2 w ht, true) /\
    limits_2d Sample.xs Sample.ys (LimTuple [0; 10; 0; 10]) = Ok lims /\
    Np.histogram2d (Np.bool_index Sample.xs (in_range_2d lims Sample.xs Sample.ys))
                   (Np.bool_index Sample.ys (in_range_2d lims Sample.xs Sample.ys))
                   (Qceiling (w / 5)) (Qceiling (ht / 5)) (fst lims) (snd lims)
    = Ok (hist, xedges, yedges) /\
    Arr2 [[1; 0]; [1; 0]]%nat = Arr2 (Np.transpose hist) /\
    Arr2 [[0; 5; 10]; [0; 5; 10]] = Arr2 [yedges; xedges] /\
    list_sum (nd_flat (Arr2 [[1; 0]; [1; 0]]%nat))
    = length (filter (fun b : bool => b) (in_range_2d lims Sample.xs Sample.ys)).
Proof.
  apply (C3_histogram_2d_over_filtered
           Sample.xs Sample.ys (Sample.kw None (Some (LimTuple [0; 10; 0; 10])))
           (Arr2 [[1; 0]; [1; 0]]%nat) (Arr2 [[0; 5; 10]; [0; 5; 10]])).
  vm_compute. reflexivity.
Defined.

(* ================================================================== *)
(** ** C4: from frames to time *)

(** C4, the claim refuted: with a repeated timestamp the least positive
    difference is 1, but the code scales by the least difference, 0, so
    the bin visited once holds 0 and not 1. *)
Lemma C4_counterexample :
  exists m c e counts,
    spatial_occupancy [0; 1; 1] [Sample.xs; Sample.ys]
                      (Sample.speed1 [1; 1; 1]) (Sample.kw None None)
    = Ok (m, c, e) /\
    accumulatespatial
      (kept [Sample.xs; Sample.ys] (Sample.speed1 [1; 1; 1]) (Sample.kw None None))
      (Sample.kw None None) = Ok (counts, e) /\
    min_positive_delta [0; 1; 1] = Some 1 /\
    ma_data m <> nd_map (fun n => Qred (count_to_Q n * 1)) counts.
Proof.
  eexists. eexists. eexists. eexists.
  split; [vm_compute; reflexivity |].
  split; [vm_compute; reflexivity |].
  split; [vm_compute; reflexivity |].
  vm_compute. discriminate.
Qed.

(** C4, amended.  The time of every bin is its frame count multiplied by
    the least difference of consecutive timestamps of the full time
    series, whatever its sign; when all the differences are positive this
    is the least positive difference. *)
Theorem C4_counts_scaled_by_least_delta time position speed kw m c e :
  spatial_occupancy time position speed kw = Ok (m, c, e) ->
  exists counts fd,
    accumulatespatial (kept position speed kw) kw = Ok (counts, e) /\
    ma_data m = nd_map (fun n => Qred (count_to_Q n * fd)) counts /\
    In fd (Np.diff time) /\
    Forall (fun d => fd <= d) (Np.diff time) /\
    (Forall (fun d => 0 < d) (Np.diff time) -> min_positive_delta time = Some fd).
Proof.
  intros H. apply spatial_occupancy_Ok in H.
  destruct H as (counts & fd & _ & Hacc & Hfd & Hm & _).
  exists counts, fd. subst m. cbn [ma_data].
  destruct (np_min_spec _ _ Hfd) as [Hin Hle].
  repeat split; try assumption.
  intros Hpos. apply min_positive_delta_all_positive; assumption.
Qed.

Lemma C4_witness :
  exists counts fd,
    accumulatespatial
      (kept [Sample.xs; Sample.ys] (Sample.speed1 [1; 1; 1]) (Sample.kw None None))
      (Sample.kw None None) = Ok (counts, Arr2 [[0; 5; 10]; [0; 5; 10]]) /\
    Arr2 [[1 # 2; 0]; [1 # 2; 0]] = nd_map (fun n => Qred (count_to_Q n * fd)) counts /\
    In fd (Np.diff [0; 1 # 2; 1]) /\
    Forall (fun d => fd <= d) (Np.diff [0; 1 # 2; 1]) /\
    (Forall (fun d => 0 < d) (Np.diff [0; 1 # 2; 1]) ->
     min_positive_delta [0; 1 # 2; 1] = Some fd).
Proof.
  apply (C4_counts_scaled_by_least_delta
           [0; 1 # 2; 1] [Sample.xs; Sample.ys] (Sample.speed1 [1; 1; 1])
           (Sample.kw None None)
           {| ma_data := Arr2 [[1 # 2; 0]; [1 # 2; 0]];
              ma_mask := Arr2 [[false; true]; [false; true]] |}
           (1 # 2) (Arr2 [[0; 5; 10]; [0; 5; 10]])).
  vm_compute. reflexivity.
Defined.

(* ================================================================== *)
(** ** C5: coverage *)

(** C5.  Whenever [spatial_occupancy] returns, the coverage lies in the
    closed unit interval, for the square tags and for the circle tags
    (no other tag returns). *)
Theorem C5_coverage_in_unit_interval time position speed kw m c e :
  spatial_occupancy time position speed kw = Ok (m, c, e) ->
  0 <= c <= 1.
Proof.
  intros H. apply spatial_occupancy_Ok in H.
  destruct H as (counts & fd & _ & _ & _ & _ & Hc). exact Hc.
Qed.

Lemma C5_witness :
  (spatial_occupancy [0; 1; 2] [Sample.xs; Sample.ys] (Sample.speed1 [1; 1; 1])
                     (Sample.kw (Some "square"%string) None)
   = Ok ({| ma_data := Arr2 [[1; 0]; [1; 0]];
            ma_mask := Arr2 [[false; true]; [false; true]] |},
         1 # 2, Arr2 [[0; 5; 10]; [0; 5; 10]])
   /\ 0 <= 1 # 2 <= 1) /\
  (spatial_occupancy [0; 1; 2] [Sample.xs; Sample.ys] (Sample.speed1 [1; 1; 1])
                     (Sample.kw (Some "Circle"%string) (Some (LimTuple [-5; 5; -5; 5])))
   = Ok ({| ma_data := Arr2 [[0; 0]; [0; 1]];
            ma_mask := Arr2 [[true; true]; [true; false]] |},
         1 # 4, Arr2 [[-5; 0; 5]; [-5; 0; 5]])
   /\ 0 <= 1 # 4 <= 1).
Proof.
  split.
  - assert (H : spatial_occupancy [0; 1; 2] [Sample.xs; Sample.ys]
                  (Sample.speed1 [1; 1; 1]) (Sample.kw (Some "square"%string) None)
                = Ok ({| ma_data := Arr2 [[1; 0]; [1; 0]];
                         ma_mask := Arr2 [[false; true]; [false; true]] |},
                      1 # 2, Arr2 [[0; 5; 10]; [0; 5; 10]]))
      by (vm_compute; reflexivity).
    split; [exact H | exact (C5_coverage_in_unit_interval _ _ _ _ _ _ _ H)].
  - assert (H : spatial_occupancy [0; 1; 2] [Sample.xs; Sample.ys]
                  (Sample.speed1 [1; 1; 1])
                  (Sample.kw (Some "Circle"%string) (Some (LimTuple [-5; 5; -5; 5])))
                = Ok ({| ma_data := Arr2 [[0; 0]; [0; 1]];
                         ma_mask := Arr2 [[true; true]; [true; false]] |},
                      1 # 4, Arr2 [[-5; 0; 5]; [-5; 0; 5]]))
      by (vm_compute; reflexivity).
    split; [exact H | exact (C5_coverage_in_unit_interval _ _ _ _ _ _ _ H)].
Defined.

(* ================================================================== *)
(** ** C6: the shape tag *)




(* ================================================================== *)
(** ** C7: validation errors *)

(** C7.  A speed array that is not 1D, or whose size differs from the
    number of position samples, raises [ValueError] whatever the other
    arguments are; a configuration without [arena_size] raises [KeyError]
    once the shape checks, which come first, have passed; in each case the
    call raises and returns no output. *)
Theorem C7_speed_and_arena_size_errors time position speed kw :
  (speed_ndim speed <> 1%nat
   \/ length (speed_flat speed) <> length (hd [] position) ->
   exists msg, spatial_occupancy time position speed kw = Raise (ValueError msg)) /\
  (kw_arena_size kw = None ->
   (exists e, spatial_occupancy time position speed kw = Raise e) /\
   (length position = 1%nat \/ length position = 2%nat ->
    speed_ndim speed = 1%nat ->
    length (speed_flat speed) = length (hd [] position) ->
    exists msg, spatial_occupancy time position speed kw = Raise (KeyError msg))).
Proof.
  unfold spatial_occupancy. split.
  - intros Hspeed.
    destruct (negb (Nat.eqb (length position) 1 || Nat.eqb (length position) 2));
      [eexists; reflexivity |].
    destruct (Nat.eqb (speed_ndim speed) 1) eqn:Hndim; simpl;
      [| eexists; reflexivity].
    destruct (Nat.eqb (length (speed_flat speed)) (length (hd [] position))) eqn:Hsize;
      simpl; [| eexists; reflexivity].
    apply Nat.eqb_eq in Hndim. apply Nat.eqb_eq in Hsize.
    destruct Hspeed as [Hn | Hn]; contradiction.
  - intros Hsize. rewrite Hsize. split.
    + destruct (negb (Nat.eqb (length position) 1 || Nat.eqb (length position) 2));
        [eexists; reflexivity |].
      destruct (negb (Nat.eqb (speed_ndim speed) 1)); [eexists; reflexivity |].
      destruct (negb (Nat.eqb (length (speed_flat speed)) (length (hd [] position))));
        eexists; reflexivity.
    + intros Hdims Hndim Hlen. rewrite Hndim, Hlen, !Nat.eqb_refl. simpl.
      destruct Hdims as [Hd | Hd]; rewrite Hd; simpl; eexists; reflexivity.
Qed.

Lemma C7_witness :
  (exists msg,
      spatial_occupancy [0; 1; 2] [Sample.xs; Sample.ys]
                        (Sample.speed1 [1; 1]) (Sample.kw None None)
      = Raise (ValueError msg)) /\
  (exists msg,
      spatial_occupancy [0; 1; 2] [Sample.xs; Sample.ys] (Sample.speed1 [1; 1; 1])
                        (Build_kwargs None None None None None None)
      = Raise (KeyError msg)).
Proof.
  split.
  - apply (C7_speed_and_arena_size_errors
             [0; 1; 2] [Sample.xs; Sample.ys] (Sample.speed1 [1; 1]) (Sample.kw None None)).
    right. simpl. lia.
  - apply (C7_speed_and_arena_size_errors
             [0; 1; 2] [Sample.xs; Sample.ys] (Sample.speed1 [1; 1; 1])
             (Build_kwargs None None None None None None)).
    + reflexivity.
    + right. reflexivity.
    + reflexivity.
    + reflexivity.
Defined.

(* ================================================================== *)
(** ** C8: bin counts and edges *)

(** C8.  Whenever the accumulator returns, the histogram has
    [ceil(extent / bin_width)] bins along each axis, and the edge array of
    each axis is strictly increasing and one longer than the bin count of
    that axis.  In the 2D case the rows of the histogram run along y and
    the edges are returned as [[yedges, xedges]]. *)
Theorem C8_bin_counts_and_edges pos kw h e :
  accumulatespatial pos kw = Ok (h, e) ->
  let bw := get (kw_bin_width kw) Default.bin_width in
  (exists w hist edges,
      validatekeyword__arena_size (kw_arena_size kw) (length pos) = Ok (Extent1 w, false) /\
      h = Arr1 hist /\ e = Arr1 edges /\
      Z.of_nat (length hist) = Qceiling (w / bw) /\
      length edges = S (length hist) /\
      strictly_increasing edges)
  \/
  (exists w ht rows yedges xedges,
      validatekeyword__arena_size (kw_arena_size kw) (length pos) = Ok (Extent2 w ht, true) /\
      h = Arr2 rows /\ e = Arr2 [yedges; xedges] /\
      Z.of_nat (length rows) = Qceiling (ht / bw) /\
      Forall (fun r => Z.of_nat (length r) = Qceiling (w / bw)) rows /\
      length yedges = S (length rows) /\
      Z.of_nat (length xedges) = (Qceiling (w / bw) + 1)%Z /\
      strictly_increasing yedges /\
      strictly_increasing xedges).
Proof.
  intros H. apply accumulatespatial_Ok in H. cbv zeta in H |- *.
  destruct H as [_ [(x & w & lims & hist & edges & Hpos & Hval & _ & Hh & -> & ->)
                   | (x & y & w & ht & lims & hist & xe & ye & Hpos & Hval & _ & Hh & -> & ->)]];
    subst pos.
  - unfold Np.histogram in Hh. discriminate Hh.
  - right. exists w, ht, (Np.transpose hist), ye, xe.
    apply histogram2d_Ok in Hh.
    destruct Hh as (kx & ky & Hkx & Hky & Hnx & Hny & Hlen & Hrows & Hxe & Hye & Hix & Hiy).
    destruct (transpose_shape hist kx ky Hkx Hlen Hrows) as [Ht1 Ht2].
    repeat split; try assumption.
    + rewrite Ht1. exact Hny.
    + eapply Forall_impl; [| exact Ht2]. intros r Hr. simpl in Hr. rewrite Hr. exact Hnx.
    + rewrite Ht1. exact Hye.
    + rewrite Hxe. lia.
Qed.

Lemma C8_witness :
  accumulatespatial [Sample.xs; Sample.ys] (Sample.kw None None)
  = Ok (Arr2 [[1; 0]; [1; 0]]%nat, Arr2 [[0; 5; 10]; [0; 5; 10]]) /\
  length [0; 5; 10] = 3%nat /\
  strictly_increasing [0; 5; 10].
Proof.
  assert (H : accumulatespatial [Sample.xs; Sample.ys] (Sample.kw None None)
              = Ok (Arr2 [[1; 0]; [1; 0]]%nat, Arr2 [[0; 5; 10]; [0; 5; 10]]))
    by (vm_compute; reflexivity).
  split; [exact H |].
  destruct (C8_bin_counts_and_edges _ _ _ _ H)
    as [(w & hist & edges & _ & Hh & _)
       | (w & ht & rows & ye & xe & _ & Hh & He & _ & _ & Hlen & _ & Hinc & _)].
  - discriminate Hh.
  - inversion He; subst ye xe. inversion Hh; subst rows.
    split; [exact Hlen | exact Hinc].
Defined.

(* ================================================================== *)
(** ** C9: which samples contribute *)




(* ================================================================== *)
(** ** C10: limits given as an array *)

(** C10.  Limits given as an array of two or more elements pass the type
    check on [limits], and the call then never returns a histogram: it
    raises.  When the steps before the comparison pass (the arena size
    matches a dimensionality of 1 or 2 and the bin width is not zero) the
    error is the [ValueError] of the ambiguous truth value of
    [limits == None], in the 1D and in the 2D branch alike. *)
Theorem C10_array_limits_raise pos kw l :
  kw_limits kw = Some (LimArray l) ->
  (2 <= length l)%nat ->
  limits_type_ok (LimArray l) = true /\
  (exists e, accumulatespatial pos kw = Raise e) /\
  (forall a is_2d,
      validatekeyword__arena_size (kw_arena_size kw) (length pos) = Ok (a, is_2d) ->
      ~ get (kw_bin_width kw) Default.bin_width == 0 ->
      accumulatespatial pos kw
      = Raise (ValueError "The truth value of an array with more than one element is ambiguous. Use a.any() or a.all()")).
Proof.
  intros Hlim Hlen.
  split; [reflexivity |].
  split.
  - destruct (accumulatespatial pos kw) as [[h e] | e] eqn:Hacc; [| exists e; reflexivity].
    exfalso. apply accumulatespatial_Ok in Hacc. cbv zeta in Hacc.
    rewrite Hlim in Hacc. cbn [get] in Hacc.
    destruct Hacc as [_ [(x & w & lims & hist & edges & _ & _ & Hl & _)
                        | (x & y & w & ht & lims & hist & xe & ye & _ & _ & Hl & _)]].
    + unfold limits_1d in Hl. rewrite (limits_eq_None_array l Hlen) in Hl. discriminate Hl.
    + unfold limits_2d in Hl. rewrite (limits_eq_None_array l Hlen) in Hl. discriminate Hl.
  - intros a is_2d Hval Hbw.
    assert (Hbw' : Qeq_bool (get (kw_bin_width kw) Default.bin_width) 0 = false).
    { destruct (Qeq_bool _ 0) eqn:E; [| reflexivity].
      apply Qeq_bool_iff in E. contradiction. }
    unfold accumulatespatial. rewrite Hlim, Hval. cbn [get limits_type_ok negb bind].
    unfold num_bins_of. rewrite Hbw'. cbn [bind].
    apply validatekeyword__arena_size_Ok in Hval.
    destruct Hval as [(Hd & His & _) | (Hd & His & _)]; rewrite Hd, His.
    + destruct pos as [| x [| y r]]; try discriminate Hd.
      cbn [Nat.eqb orb negb row nth_error bind].
      unfold limits_1d. rewrite (limits_eq_None_array l Hlen). reflexivity.
    + destruct pos as [| x [| y [| z r]]]; try discriminate Hd.
      cbn [Nat.eqb orb negb row nth_error bind].
      unfold limits_2d. rewrite (limits_eq_None_array l Hlen). reflexivity.
Qed.

Lemma C10_witness :
  accumulatespatial [Sample.xs; Sample.ys]
                    (Sample.kw None (Some (LimArray [0; 10; 0; 10])))
  = Raise (ValueError "The truth value of an array with more than one element is ambiguous. Use a.any() or a.all()").
Proof.
  refine (proj2 (proj2 (C10_array_limits_raise
                          [Sample.xs; Sample.ys]
                          (Sample.kw None (Some (LimArray [0; 10; 0; 10])))
                          [0; 10; 0; 10] _ _)) (Extent2 10 10) true _ _).
  - reflexivity.
  - simpl. lia.
  - reflexivity.
  - vm_compute. discriminate.
Defined.

(* ================================================================== *)
(** ** Further properties of the accumulator: argument checks *)

Lemma Qeq_bool_false (a b : Q) : ~ a == b -> Qeq_bool a b = false.
Proof.
  intros H. destruct (Qeq_bool a b) eqn:E; [| reflexivity].
  apply Qeq_bool_iff in E. contradiction.
Qed.

(** X1.  The accumulator looks at the number of rows first and at the type
    of [limits] next, before the arena size is validated: a position
    array of neither one nor two rows is rejected whatever the keywords
    are, and a [limits] that is no tuple, list, array or [None] is
    rejected whatever the arena size is. *)
Theorem X1_accumulator_argument_checks pos kw :
  (length pos <> 1%nat -> length pos <> 2%nat ->
   accumulatespatial pos kw
   = Raise (ValueError "pos should have either 1 or 2 dimensions.")) /\
  (length pos = 1%nat \/ length pos = 2%nat ->
   kw_limits kw = Some LimOther ->
   accumulatespatial pos kw
   = Raise (ValueError "You must provide an array-like 'limits' value")).
Proof.
  unfold accumulatespatial. split.
  - intros H1 H2.
    destruct (Nat.eqb (length pos) 1) eqn:E1; [apply Nat.eqb_eq in E1; contradiction |].
    destruct (Nat.eqb (length pos) 2) eqn:E2; [apply Nat.eqb_eq in E2; contradiction |].
    reflexivity.
  - intros Hd Hlim. rewrite Hlim.
    destruct Hd as [Hd | Hd]; rewrite Hd; reflexivity.
Qed.

Lemma X1_witness :
  accumulatespatial [Sample.xs; Sample.ys; Sample.xs] (Sample.kw None None)
  = Raise (ValueError "pos should have either 1 or 2 dimensions.") /\
  accumulatespatial [Sample.xs; Sample.ys]
                    (Build_kwargs None None None None (Some LimOther) None)
  = Raise (ValueError "You must provide an array-like 'limits' value").
Proof.
  split.
  - apply (proj1 (X1_accumulator_argument_checks
                    [Sample.xs; Sample.ys; Sample.xs] (Sample.kw None None)));
      simpl; lia.
  - apply (proj2 (X1_accumulator_argument_checks
                    [Sample.xs; Sample.ys]
                    (Build_kwargs None None None None (Some LimOther) None))).
    + right. reflexivity.
    + reflexivity.
Defined.

(** X2.  Once the arena size is valid and the bin width is not zero, limits
    that are given (and that compare unequal to [None]) must have four
    elements for a 2D map and two for a 1D map; any other number raises the
    [ValueError] of the branch.  An array of fewer than two elements is
    such a case, so no array of limits is ever accepted. *)
Theorem X2_limits_need_two_or_four_elements pos kw lim a is_2d :
  validatekeyword__arena_size (kw_arena_size kw) (length pos) = Ok (a, is_2d) ->
  ~ get (kw_bin_width kw) Default.bin_width == 0 ->
  kw_limits kw = Some lim ->
  limits_type_ok lim = true ->
  limits_eq_None lim = Ok false ->
  length (limits_elems lim) <> (if is_2d then 4%nat else 2%nat) ->
  accumulatespatial pos kw
  = Raise (ValueError
             (if is_2d
              then "You must provide a 4-element 'limits' value for a 2D map."
              else "You must provide a 2-element 'limits' value for a 1D map.")).
Proof.
  intros Hval Hbw Hlim Htype Hnone Hlen.
  unfold accumulatespatial. rewrite Hlim, Hval.
  cbn [get bind]. unfold num_bins_of.
  rewrite (Qeq_bool_false _ _ Hbw).
  apply validatekeyword__arena_size_Ok in Hval.
  destruct Hval as [(Hd & His & _) | (Hd & His & _)]; subst is_2d; rewrite Hd.
  - destruct pos as [| x [| y r]]; try discriminate Hd.
    cbn [Nat.eqb orb negb]. rewrite Htype. cbn [negb bind row nth_error].
    unfold limits_1d. rewrite Hnone. cbn [bind].
    destruct (Nat.eqb (length (limits_elems lim)) 2) eqn:E;
      [apply Nat.eqb_eq in E; contradiction | reflexivity].
  - destruct pos as [| x [| y [| z r]]]; try discriminate Hd.
    cbn [Nat.eqb orb negb]. rewrite Htype. cbn [negb bind row nth_error].
    unfold limits_2d. rewrite Hnone. cbn [bind].
    destruct (Nat.eqb (length (limits_elems lim)) 4) eqn:E;
      [apply Nat.eqb_eq in E; contradiction | reflexivity].
Qed.

Lemma X2_witness :
  accumulatespatial [Sample.xs; Sample.ys] (Sample.kw None (Some (LimTuple [0; 10])))
  = Raise (ValueError "You must provide a 4-element 'limits' value for a 2D map.") /\
  accumulatespatial [Sample.xs] (Sample.kw None (Some (LimArray [0])))
  = Raise (ValueError "You must provide a 2-element 'limits' value for a 1D map.").
Proof.
  split.
  - apply (X2_limits_need_two_or_four_elements
             [Sample.xs; Sample.ys] (Sample.kw None (Some (LimTuple [0; 10])))
             (LimTuple [0; 10]) (Extent2 10 10) true).
    + reflexivity.
    + vm_compute. discriminate.
    + reflexivity.
    + reflexivity.
    + reflexivity.
    + simpl. lia.
  - apply (X2_limits_need_two_or_four_elements
             [Sample.xs] (Sample.kw None (Some (LimArray [0])))
             (LimArray [0]) (Extent1 10) false).
    + reflexivity.
    + vm_compute. discriminate.
    + reflexivity.
    + reflexivity.
    + reflexivity.
    + simpl. lia.
Defined.

(* ================================================================== *)
(** ** Further properties of the accumulator: which samples count *)

Lemma combine_app_cons {A B : Type} (x1 x2 : list A) (y1 y2 : list B) (a : A) (b : B) :
  length x1 = length y1 ->
  combine (x1 ++ a :: x2) (y1 ++ b :: y2) = combine x1 y1 ++ (a, b) :: combine x2 y2.
Proof.
  revert y1. induction x1 as [| u x1 IH]; intros [| v y1] Hlen; simpl in *;
    try discriminate Hlen; [reflexivity |].
  injection Hlen as Hlen. rewrite IH by exact Hlen. reflexivity.
Qed.

Lemma combine_app_eq {A B : Type} (x1 x2 : list A) (y1 y2 : list B) :
  length x1 = length y1 ->
  combine (x1 ++ x2) (y1 ++ y2) = combine x1 y1 ++ combine x2 y2.
Proof.
  revert y1. induction x1 as [| u x1 IH]; intros [| v y1] Hlen; simpl in *;
    try discriminate Hlen; [reflexivity |].
  injection Hlen as Hlen. rewrite IH by exact Hlen. reflexivity.
Qed.

Lemma bool_index_app {A : Type} (a1 a2 : list A) (m1 m2 : list bool) :
  length a1 = length m1 ->
  Np.bool_index (a1 ++ a2) (m1 ++ m2) = Np.bool_index a1 m1 ++ Np.bool_index a2 m2.
Proof.
  revert m1. induction a1 as [| u a1 IH]; intros [| k m1] Hlen; simpl in *;
    try discriminate Hlen; [reflexivity |].
  injection Hlen as Hlen. rewrite IH by exact Hlen.
  destruct k; reflexivity.
Qed.

Lemma bool_index_skip {A : Type} (a1 a2 : list A) (m1 m2 : list bool) (v : A) :
  length a1 = length m1 ->
  Np.bool_index (a1 ++ v :: a2) (m1 ++ false :: m2) = Np.bool_index (a1 ++ a2) (m1 ++ m2).
Proof.
  intros Hlen. rewrite !bool_index_app by exact Hlen. reflexivity.
Qed.

(** X3.  In the 2D case, with limits given as a tuple or a list, a sample
    that has a coordinate outside the half-open limits, or a NaN
    coordinate, has no influence on the result, wherever it stands in the
    rows: the call returns (or raises) what it does without it. *)
Theorem X3_outside_sample_has_no_influence x1 x2 y1 y2 a b kw lim l :
  length x1 = length y1 ->
  kw_limits kw = Some lim ->
  lim = LimTuple l \/ lim = LimList l ->
  Np.in_half_open (nth 0 l 0) (nth 1 l 0) a
  && Np.in_half_open (nth 2 l 0) (nth 3 l 0) b = false ->
  accumulatespatial [x1 ++ a :: x2; y1 ++ b :: y2] kw
  = accumulatespatial [x1 ++ x2; y1 ++ y2] kw.
Proof.
  intros Hlen Hlim Hkind Hout. unfold accumulatespatial. rewrite Hlim.
  assert (Htype : limits_type_ok lim = true) by (destruct Hkind; subst lim; reflexivity).
  assert (Hnone : limits_eq_None lim = Ok false) by (destruct Hkind; subst lim; reflexivity).
  assert (Helems : limits_elems lim = l) by (destruct Hkind; subst lim; reflexivity).
  cbn [length Nat.eqb orb negb get]. rewrite Htype. cbn [negb].
  destruct (validatekeyword__arena_size _ _) as [[ar is_2d] | err] eqn:Hval;
    [| reflexivity].
  apply validatekeyword__arena_size_Ok in Hval.
  destruct Hval as [(Hd & _) | (_ & His & _)]; [discriminate Hd | subst is_2d].
  cbn [bind]. destruct (num_bins_of _ _) as [nb | err]; [| reflexivity].
  cbn [bind row nth_error].
  unfold limits_2d. rewrite Hnone, Helems. cbn [bind].
  destruct (negb (Nat.eqb (length l) 4)); [reflexivity |].
  cbn [bind]. unfold in_range_2d.
  rewrite combine_app_cons, combine_app_eq by exact Hlen.
  rewrite !map_app. cbn [map fst snd]. rewrite Hout.
  rewrite !bool_index_skip
    by (rewrite length_map, length_combine; lia).
  reflexivity.
Qed.

Lemma X3_witness :
  accumulatespatial [Sample.vals [0; 3] ++ Val 10 :: Sample.vals [4];
                     Sample.vals [0; 7] ++ NaN :: Sample.vals [4]]
                    (Sample.kw None (Some (LimList [0; 10; 0; 10])))
  = accumulatespatial [Sample.vals [0; 3] ++ Sample.vals [4];
                       Sample.vals [0; 7] ++ Sample.vals [4]]
                      (Sample.kw None (Some (LimList [0; 10; 0; 10]))).
Proof.
  apply (X3_outside_sample_has_no_influence
           (Sample.vals [0; 3]) (Sample.vals [4]) (Sample.vals [0; 7]) (Sample.vals [4])
           (Val 10) NaN (Sample.kw None (Some (LimList [0; 10; 0; 10])))
           (LimList [0; 10; 0; 10]) [0; 10; 0; 10]).
  - reflexivity.
  - reflexivity.
  - right. reflexivity.
  - reflexivity.
Defined.

Lemma list_sum_zero (l : list nat) : list_sum l = 0%nat -> Forall (fun n => n = 0%nat) l.
Proof.
  induction l as [| n l IH]; simpl; intros H; constructor.
  - lia.
  - apply IH. lia.
Qed.

(** X4.  Whenever the accumulator returns, in the 1D and in the 2D case,
    the counts of the histogram add up to no more than the number of
    samples it was given; on empty rows every count is zero. *)
Theorem X4_counts_bounded_by_samples pos kw h e :
  accumulatespatial pos kw = Ok (h, e) ->
  (list_sum (nd_flat h) <= length (hd [] pos))%nat /\
  (hd [] pos = [] -> Forall (fun n => n = 0%nat) (nd_flat h)).
Proof.
  intros H.
  assert (Hle : (list_sum (nd_flat h) <= length (hd [] pos))%nat).
  { pose proof H as H'. apply accumulatespatial_Ok in H'. cbv zeta in H'.
    destruct H' as [_ [(x & w & lims & hist & edges & Hpos & _)
                      | (x & y & w & ht & lims & hist & xe & ye & Hpos & _)]];
      subst pos; cbn [hd].
    - destruct (accumulatespatial_1d_raises x kw) as [err Herr].
      rewrite Herr in H. discriminate H.
    - destruct (accumulatespatial_2d_total x y kw h e H) as (lims' & _ & Ht).
      rewrite Ht. unfold in_range_2d. rewrite filter_map_length.
      eapply Nat.le_trans; [apply filter_length_le |].
      rewrite length_combine. lia. }
  split; [exact Hle |].
  intros Hempty. rewrite Hempty in Hle. simpl in Hle.
  apply list_sum_zero. lia.
Qed.

Lemma X4_witness :
  (list_sum (nd_flat (Arr2 [[1; 0]; [1; 0]]%nat)) <= length (hd [] [Sample.xs; Sample.ys]))%nat /\
  (hd [] [Sample.xs; Sample.ys] = [] ->
   Forall (fun n => n = 0%nat) (nd_flat (Arr2 [[1; 0]; [1; 0]]%nat))).
Proof.
  apply (X4_counts_bounded_by_samples
           [Sample.xs; Sample.ys] (Sample.kw None None)
           (Arr2 [[1; 0]; [1; 0]]%nat) (Arr2 [[0; 5; 10]; [0; 5; 10]])).
  vm_compute. reflexivity.
Defined.

Lemma Qmax_either (q d : Q) : Qmax q d = q \/ Qmax q d = d.
Proof.
  unfold Qmax, GenericMinMax.gmax. destruct (q ?= d); auto.
Qed.

Lemma fold_Qmax_In (r : list Q) (q : Q) : In (fold_left Qmax r q) (q :: r).
Proof.
  revert q. induction r as [| d r IH]; intros q; simpl.
  - left. reflexivity.
  - destruct (IH (Qmax q d)) as [H | H].
    + destruct (Qmax_either q d) as [E | E]; rewrite E in *; auto.
    + right. right. exact H.
Qed.

Lemma finite_In (x : list coord) (q : Q) : In q (Np.finite x) -> In (Val q) x.
Proof.
  induction x as [| c x IH]; simpl; [tauto |].
  destruct c as [v |]; simpl; intros H.
  - destruct H as [H | H]; [left; congruence | right; apply IH; exact H].
  - right. apply IH. exact H.
Qed.

Lemma nanmax_In (x : list coord) (q : Q) : Np.nanmax x = Ok q -> In (Val q) x.
Proof.
  unfold Np.nanmax. intros H. apply finite_In.
  destruct (Np.finite x) as [| v r]; [discriminate H |].
  inversion H; subst. apply fold_Qmax_In.
Qed.

Lemma in_combine_exists {A B : Type} (x : list A) (y : list B) (a : A) :
  length x = length y -> In a x -> exists b, In (a, b) (combine x y).
Proof.
  revert y. induction x as [| u x IH]; intros [| v y] Hlen Hin; simpl in *;
    try discriminate Hlen; [contradiction |].
  injection Hlen as Hlen. destruct Hin as [-> | Hin].
  - exists v. left. reflexivity.
  - destruct (IH y Hlen Hin) as [b Hb]. exists b. right. exact Hb.
Qed.

Lemma filter_length_lt {A : Type} (P : A -> bool) (l : list A) (a : A) :
  In a l -> P a = false -> (length (filter P l) < length l)%nat.
Proof.
  induction l as [| u l IH]; simpl; [tauto |].
  intros [-> | Hin] Hp.
  - rewrite Hp. pose proof (filter_length_le P l). lia.
  - specialize (IH Hin Hp). destruct (P u); simpl; lia.
Qed.

(** X5.  In the 2D case without limits the limits are the least and the
    greatest coordinate of each row, and the upper one is excluded: the
    sample with the greatest x is never counted, so the counts add up to
    fewer than the number of samples. *)
Theorem X5_default_limits_drop_the_greatest x y kw h e :
  accumulatespatial [x; y] kw = Ok (h, e) ->
  get (kw_limits kw) LimNone = LimNone ->
  length x = length y ->
  (list_sum (nd_flat h) < length x)%nat.
Proof.
  intros H Hnone Hlen.
  destruct (accumulatespatial_2d_total x y kw h e H) as (lims & Hl & Ht).
  rewrite Ht. rewrite Hnone in Hl. unfold limits_2d in Hl. cbn [limits_eq_None bind] in Hl.
  inv_bind_as Hl xmin Hxmin. inv_bind_as Hl xmax Hxmax.
  inv_bind_as Hl ymin Hymin. inv_bind_as Hl ymax Hymax.
  inversion Hl; subst lims; clear Hl.
  apply nanmax_In in Hxmax.
  destruct (in_combine_exists x y (Val xmax) Hlen Hxmax) as [b Hb].
  unfold in_range_2d. rewrite filter_map_length. cbn [fst snd].
  assert (Hcomb : length (combine x y) = length x) by (rewrite length_combine; lia).
  rewrite <- Hcomb.
  eapply filter_length_lt; [exact Hb |].
  cbn [fst snd Np.in_half_open].
  assert (Hirr : Np.Qlt_bool xmax xmax = false) by (apply Qlt_bool_false_iff; apply Qle_refl).
  rewrite Hirr, andb_false_r. reflexivity.
Qed.

Lemma X5_witness :
  (list_sum (nd_flat (Arr2 [[1; 0]; [1; 0]]%nat)) < length Sample.xs)%nat.
Proof.
  apply (X5_default_limits_drop_the_greatest
           Sample.xs Sample.ys (Sample.kw None None)
           (Arr2 [[1; 0]; [1; 0]]%nat) (Arr2 [[0; 5; 10]; [0; 5; 10]])).
  - vm_compute. reflexivity.
  - reflexivity.
  - reflexivity.
Defined.

(* ================================================================== *)
(** ** Further properties of the accumulator: edges and success *)

Lemma linspace_evenly_spaced lo hi n :
  (1 <= n)%nat -> evenly_spaced (Np.linspace lo hi n) lo hi.
Proof.
  intros Hn. unfold evenly_spaced. rewrite linspace_length.
  assert (Hnz : ~ inject_Z (Z.of_nat n) == 0).
  { unfold Qeq. simpl. lia. }
  replace (S n - 1)%nat with n by lia.
  repeat split.
  - rewrite linspace_nth by lia. simpl. field. exact Hnz.
  - rewrite linspace_nth by lia. field. exact Hnz.
  - intros i Hi. rewrite !linspace_nth by lia.
    rewrite Nat2Z.inj_succ. unfold Z.succ. rewrite inject_Z_plus.
    field. exact Hnz.
Qed.

Lemma outer_edges_proper lo hi :
  lo < hi -> Np.outer_edges lo hi = Ok (lo, hi).
Proof.
  intros Hlt. unfold Np.outer_edges.
  assert (Hrev : Np.Qlt_bool hi lo = false)
    by (apply Qlt_bool_false_iff; apply Qlt_le_weak; exact Hlt).
  rewrite Hrev, Qeq_bool_false; [reflexivity |].
  intros E. rewrite E in Hlt. apply (Qlt_irrefl hi Hlt).
Qed.

Lemma outer_edges_Ok_le lo hi r : Np.outer_edges lo hi = Ok r -> lo <= hi.
Proof.
  unfold Np.outer_edges.
  destruct (Np.Qlt_bool hi lo) eqn:Hrev; [discriminate |].
  intros _. apply Qlt_bool_false_iff. exact Hrev.
Qed.

Lemma outer_edges_degenerate lo hi :
  lo == hi -> Np.outer_edges lo hi = Ok (lo - (1 # 2), hi + (1 # 2)).
Proof.
  intros E. unfold Np.outer_edges.
  assert (Hrev : Np.Qlt_bool hi lo = false)
    by (apply Qlt_bool_false_iff; rewrite E; apply Qle_refl).
  assert (Heq : Qeq_bool lo hi = true) by (apply Qeq_bool_iff; exact E).
  rewrite Hrev, Heq. reflexivity.
Qed.

(** X6.  Whenever the 2D accumulator returns, the edges of each axis, on
    its own, start at the lower limit of that axis, end at its upper
    limit and are equally spaced: the width of a bin is the range divided
    by the number of bins, whatever the bin width keyword is.  Where the
    two limits of an axis coincide, its edges run in equal steps from half
    a unit below to half a unit above them. *)
Theorem X6_edges_span_the_limits x y kw h e lims :
  accumulatespatial [x; y] kw = Ok (h, e) ->
  limits_2d x y (get (kw_limits kw) LimNone) = Ok lims ->
  exists yedges xedges,
    e = Arr2 [yedges; xedges] /\
    (fst (fst lims) < snd (fst lims) ->
     evenly_spaced xedges (fst (fst lims)) (snd (fst lims))) /\
    (fst (fst lims) == snd (fst lims) ->
     evenly_spaced xedges (fst (fst lims) - (1 # 2)) (snd (fst lims) + (1 # 2))) /\
    (fst (snd lims) < snd (snd lims) ->
     evenly_spaced yedges (fst (snd lims)) (snd (snd lims))) /\
    (fst (snd lims) == snd (snd lims) ->
     evenly_spaced yedges (fst (snd lims) - (1 # 2)) (snd (snd lims) + (1 # 2))).
Proof.
  intros H Hl.
  apply accumulatespatial_Ok in H. cbv zeta in H.
  destruct H as [_ [(x' & w & lims' & hist & edges & Hpos & _)
                   | (x' & y' & w & ht & lims' & hist & xe & ye & Hpos & _ & Hl' & Hh & _ & ->)]];
    [discriminate Hpos |].
  inversion Hpos; subst x' y'. rewrite Hl in Hl'. inversion Hl'; subst lims'.
  exists ye, xe. split; [reflexivity |].
  unfold Np.histogram2d in Hh.
  inv_bind_as Hh kx Hkx. inv_bind_as Hh rx Hrx. destruct rx as [xlo xhi].
  inv_bind_as Hh ky Hky. inv_bind_as Hh ry Hry. destruct ry as [ylo yhi].
  inversion Hh; subst hist xe ye; clear Hh.
  apply bin_count_Ok in Hkx. apply bin_count_Ok in Hky.
  split; [| split; [| split]].
  - intros Hlt. rewrite (outer_edges_proper _ _ Hlt) in Hrx. inversion Hrx; subst.
    apply linspace_evenly_spaced. lia.
  - intros Heq. rewrite (outer_edges_degenerate _ _ Heq) in Hrx. inversion Hrx; subst.
    apply linspace_evenly_spaced. lia.
  - intros Hlt. rewrite (outer_edges_proper _ _ Hlt) in Hry. inversion Hry; subst.
    apply linspace_evenly_spaced. lia.
  - intros Heq. rewrite (outer_edges_degenerate _ _ Heq) in Hry. inversion Hry; subst.
    apply linspace_evenly_spaced. lia.
Qed.

Lemma X6_witness :
  exists yedges xedges,
    Arr2 [[7 # 2; 4; 9 # 2]; [0; 5; 10]] = Arr2 [yedges; xedges] /\
    (0 < 10 -> evenly_spaced xedges 0 10) /\
    (0 == 10 -> evenly_spaced xedges (0 - (1 # 2)) (10 + (1 # 2))) /\
    (4 < 4 -> evenly_spaced yedges 4 4) /\
    (4 == 4 -> evenly_spaced yedges (4 - (1 # 2)) (4 + (1 # 2))).
Proof.
  apply (X6_edges_span_the_limits
           Sample.xs (Sample.vals [4; 4; 4]) (Sample.kw None None)
           (Arr2 [[0; 0]; [0; 0]]%nat) (Arr2 [[7 # 2; 4; 9 # 2]; [0; 5; 10]])
           ((0, 10), (4, 4))).
  - vm_compute. reflexivity.
  - vm_compute. reflexivity.
Defined.

Lemma fold_Qmax_ge (r : list Q) (q : Q) :
  Forall (fun d => d <= fold_left Qmax r q) (q :: r).
Proof.
  revert q. induction r as [| d r IH]; intros q; simpl.
  - constructor; [apply Qle_refl | constructor].
  - specialize (IH (Qmax q d)). inversion IH as [| ? ? Hhd Htl]; subst.
    constructor; [| constructor].
    + eapply Qle_trans; [apply Q.le_max_l | exact Hhd].
    + eapply Qle_trans; [apply Q.le_max_r | exact Hhd].
    + exact Htl.
Qed.

Lemma fold_Qmin_le_fold_Qmax (r : list Q) (q : Q) :
  fold_left Qmin r q <= fold_left Qmax r q.
Proof.
  pose proof (fold_Qmin_le r q) as Hmin. pose proof (fold_Qmax_ge r q) as Hmax.
  inversion Hmin; subst. inversion Hmax; subst.
  eapply Qle_trans; eassumption.
Qed.

Lemma accumulatespatial_2d_returns_iff x y kw w ht :
  validatekeyword__arena_size (kw_arena_size kw) 2 = Ok (Extent2 w ht, true) ->
  0 < w -> 0 < ht ->
  0 < get (kw_bin_width kw) Default.bin_width ->
  limits_type_ok (get (kw_limits kw) LimNone) = true ->
  (exists h e, accumulatespatial [x; y] kw = Ok (h, e)) <->
  (exists lims,
      limits_2d x y (get (kw_limits kw) LimNone) = Ok lims /\
      fst (fst lims) <= snd (fst lims) /\
      fst (snd lims) <= snd (snd lims)).
Proof.
  intros Hval Hw Hht Hbw Htype. split.
  - intros (h & e & H). apply accumulatespatial_Ok in H. cbv zeta in H.
    destruct H as [_ [(x' & w' & lims & hist & edges & Hpos & _)
                     | (x' & y' & w' & ht' & lims & hist & xe & ye & Hpos & _ & Hl & Hh & _)]];
      [discriminate Hpos |].
    inversion Hpos; subst x' y'. exists lims. split; [exact Hl |].
    unfold Np.histogram2d in Hh.
    inv_bind_as Hh kx Hkx. inv_bind_as Hh rx Hrx. destruct rx as [xlo xhi].
    inv_bind_as Hh ky Hky. inv_bind_as Hh ry Hry.
    split; eapply outer_edges_Ok_le; eassumption.
  - intros (lims & Hl & Hx & Hy).
    unfold accumulatespatial.
    cbn [length Nat.eqb orb negb]. rewrite Htype, Hval. cbn [negb bind].
    unfold num_bins_of.
    rewrite Qeq_bool_false.
    2: { intros E. rewrite E in Hbw. apply (Qlt_irrefl 0 Hbw). }
    cbn [bind row nth_error]. rewrite Hl. cbn [bind].
    unfold Np.histogram2d.
    destruct (bin_count_succeeds _ (Qdiv_pos _ _ Hw Hbw)) as [kx Hkx].
    destruct (bin_count_succeeds _ (Qdiv_pos _ _ Hht Hbw)) as [ky Hky].
    destruct (outer_edges_succeeds _ _ Hx) as [[xlo xhi] Hxe].
    destruct (outer_edges_succeeds _ _ Hy) as [[ylo yhi] Hye].
    rewrite Hkx. cbn [bind]. rewrite Hxe. cbn [bind].
    rewrite Hky. cbn [bind]. rewrite Hye. cbn [bind].
    eexists. eexists. reflexivity.
Qed.

(** X7.  With a positive arena size and bin width, the 2D accumulator
    returns a histogram exactly when the limits can be formed (four given
    elements, or a finite coordinate in each row to take them from) and
    neither range is reversed; it raises otherwise. *)
Theorem X7_accumulator_2d_returns_iff x y kw w ht :
  validatekeyword__arena_size (kw_arena_size kw) 2 = Ok (Extent2 w ht, true) ->
  0 < w -> 0 < ht ->
  0 < get (kw_bin_width kw) Default.bin_width ->
  limits_type_ok (get (kw_limits kw) LimNone) = true ->
  (exists h e, accumulatespatial [x; y] kw = Ok (h, e)) <->
  (exists lims,
      limits_2d x y (get (kw_limits kw) LimNone) = Ok lims /\
      fst (fst lims) <= snd (fst lims) /\
      fst (snd lims) <= snd (snd lims)).
Proof.
  intros Hval Hw Hht Hbw Htype.
  apply (accumulatespatial_2d_returns_iff x y kw w ht); assumption.
Qed.

Lemma X7_witness :
  (exists h e,
      accumulatespatial [Sample.xs; Sample.ys]
                        (Sample.kw None (Some (LimTuple [0; 10; 0; 10]))) = Ok (h, e)) <->
  (exists lims,
      limits_2d Sample.xs Sample.ys (LimTuple [0; 10; 0; 10]) = Ok lims /\
      fst (fst lims) <= snd (fst lims) /\
      fst (snd lims) <= snd (snd lims)).
Proof.
  apply (X7_accumulator_2d_returns_iff
           Sample.xs Sample.ys (Sample.kw None (Some (LimTuple [0; 10; 0; 10]))) 10 10).
  - reflexivity.
  - reflexivity.
  - reflexivity.
  - reflexivity.
  - reflexivity.
Defined.

Lemma nanmin_Ok_iff (x : list coord) : (exists q, Np.nanmin x = Ok q) <-> Np.finite x <> [].
Proof.
  unfold Np.nanmin. destruct (Np.finite x) as [| q r]; split.
  - intros [q H]. discriminate H.
  - intros H. contradiction.
  - intros _. discriminate.
  - intros _. eexists. reflexivity.
Qed.

(** X8.  Without limits, and with a positive arena size and bin width, the
    2D accumulator returns exactly when each row holds a finite
    coordinate: empty rows, or a row of NaNs only, raise. *)
Theorem X8_default_limits_need_a_finite_sample x y kw w ht :
  validatekeyword__arena_size (kw_arena_size kw) 2 = Ok (Extent2 w ht, true) ->
  0 < w -> 0 < ht ->
  0 < get (kw_bin_width kw) Default.bin_width ->
  get (kw_limits kw) LimNone = LimNone ->
  (exists h e, accumulatespatial [x; y] kw = Ok (h, e)) <->
  (Np.finite x <> [] /\ Np.finite y <> []).
Proof.
  intros Hval Hw Hht Hbw Hnone.
  rewrite (accumulatespatial_2d_returns_iff x y kw w ht Hval Hw Hht Hbw)
    by (rewrite Hnone; reflexivity).
  rewrite Hnone. unfold limits_2d. cbn [limits_eq_None bind].
  unfold Np.nanmin, Np.nanmax. split.
  - intros (lims & Hl & _).
    destruct (Np.finite x) as [| qx rx]; [discriminate Hl |].
    destruct (Np.finite y) as [| qy ry]; [discriminate Hl |].
    split; discriminate.
  - intros [Hx Hy].
    destruct (Np.finite x) as [| qx rx]; [contradiction |].
    destruct (Np.finite y) as [| qy ry]; [contradiction |].
    cbn [bind]. eexists. split; [reflexivity |].
    cbn [fst snd]. split; apply fold_Qmin_le_fold_Qmax.
Qed.

Lemma X8_witness :
  (exists h e, accumulatespatial [Sample.xs; Sample.ys] (Sample.kw None None) = Ok (h, e)) <->
  (Np.finite Sample.xs <> [] /\ Np.finite Sample.ys <> []).
Proof.
  apply (X8_default_limits_need_a_finite_sample
           Sample.xs Sample.ys (Sample.kw None None) 10 10).
  - reflexivity.
  - reflexivity.
  - reflexivity.
  - reflexivity.
  - reflexivity.
Defined.

(* ================================================================== *)
(** ** Further properties of the occupancy mapper: when it returns *)

Lemma np_min_diff_Ok (time : list Q) (fd : Q) :
  Np.min (Np.diff time) = Ok fd -> (2 <= length time)%nat.
Proof.
  destruct time as [| a [| b r]]; simpl; intros H; try discriminate H. lia.
Qed.

Lemma np_min_diff_succeeds (time : list Q) :
  (2 <= length time)%nat -> exists fd, Np.min (Np.diff time) = Ok fd.
Proof.
  intros H. pose proof (diff_nonempty time H) as Hd.
  destruct (Np.diff time) as [| q r]; [contradiction |]. eexists. reflexivity.
Qed.

Lemma debug_header_succeeds (debug : bool) (time : list Q) :
  (2 <= length time)%nat -> debug_header debug time = Ok tt.
Proof.
  intros H. unfold debug_header. destruct debug; [| reflexivity].
  destruct (np_min_diff_succeeds time H) as [fd Hfd].
  destruct time as [| t0 time]; [simpl in H; lia |].
  rewrite Hfd. reflexivity.
Qed.

(** A successful call of [spatial_occupancy], with the checks it passed
    and the coverage it computed. *)
Lemma spatial_occupancy_Ok_full time position speed kw m c e :
  spatial_occupancy time position speed kw = Ok (m, c, e) ->
  exists counts fd,
    length position = 2%nat /\
    speed_ndim speed = 1%nat /\
    length (speed_flat speed) = length (hd [] position) /\
    kw_arena_size kw <> None /\
    accumulatespatial (kept position speed kw) kw = Ok (counts, e) /\
    Np.min (Np.diff time) = Ok fd /\
    m = {| ma_data := nd_map (fun n => Qred (count_to_Q n * fd)) counts;
           ma_mask := nd_map (fun n => Np.Qlt_bool (count_to_Q n) (1 # 1000)) counts |} /\
    (Py.str_in (Py.lower (get (kw_arena_shape kw) Default.shape)) Default.shapes_square = true ->
     Np.size counts <> 0%nat /\
     c = Qred (count_to_Q (Np.count_nonzero counts) / count_to_Q (Np.size counts))).
Proof.
  unfold spatial_occupancy. intros H.
  destruct (negb (Nat.eqb (length position) 1 || Nat.eqb (length position) 2))
    eqn:Hdims; [discriminate H |].
  destruct (Nat.eqb (speed_ndim speed) 1) eqn:Hndim; [| discriminate H].
  destruct (Nat.eqb (length (speed_flat speed)) (length (hd [] position))) eqn:Hsize;
    [| discriminate H].
  cbn [negb] in H.
  destruct (kw_arena_size kw) as [arena_size |]; [| discriminate H].
  inv_bind H. inv_bind H. inv_bind H. inv_bind H. destruct a2 as [counts edges].
  inv_bind H. inv_bind H.
  inversion H; subst; clear H.
  exists counts, a2.
  assert (Hlen : length position = 2%nat).
  { destruct position as [| x0 [| y1 [| z r]]]; simpl in *; try discriminate; reflexivity. }
  split; [exact Hlen |].
  split; [apply Nat.eqb_eq; exact Hndim |].
  split; [apply Nat.eqb_eq; exact Hsize |].
  split; [discriminate |].
  split.
  { destruct position as [| x0 [| y1 [| z r]]]; simpl in Hlen; try discriminate Hlen.
    simpl in Ha0, Ha1. inversion Ha0; inversion Ha1; subst. exact Ha2. }
  split; [exact Ha3 |].
  split; [reflexivity |].
  intros Hsq. rewrite Hsq in Ha4.
  destruct (Np.size counts) as [| k] eqn:Hk; [discriminate Ha4 |].
  inversion Ha4; subst. split; [discriminate | reflexivity].
Qed.

Lemma accumulatespatial_2d_size h e pos kw :
  length pos = 2%nat -> accumulatespatial pos kw = Ok (h, e) -> Np.size h <> 0%nat.
Proof.
  intros Hlen H. apply accumulatespatial_Ok in H. cbv zeta in H.
  destruct H as [_ [(x' & w' & lims & hist & edges & Hpos & _)
                   | (x' & y' & w' & ht & lims & hist & xe & ye & _ & _ & _ & Hh & -> & _)]];
    [subst pos; discriminate Hlen |].
  apply histogram2d_Ok in Hh.
  destruct Hh as (kx & ky & Hkx & Hky & _ & _ & Hl & Hrows & _).
  destruct (transpose_shape hist kx ky Hkx Hl Hrows) as [Ht1 Ht2].
  exact (size_positive _ kx ky Hkx Hky Ht1 Ht2).
Qed.

(** X9.  With a square tag the mapper returns exactly when the position
    array has two rows, the speed array is 1D with one element for each
    position sample, the arena size is given, there are two timestamps at
    least, and the accumulator returns on the samples that pass the speed
    filter. *)
Theorem X9_mapper_returns_iff time position speed kw :
  Py.str_in (Py.lower (get (kw_arena_shape kw) Default.shape)) Default.shapes_square = true ->
  (exists m c e, spatial_occupancy time position speed kw = Ok (m, c, e)) <->
  (length position = 2%nat /\
   speed_ndim speed = 1%nat /\
   length (speed_flat speed) = length (hd [] position) /\
   kw_arena_size kw <> None /\
   (2 <= length time)%nat /\
   exists h e, accumulatespatial (kept position speed kw) kw = Ok (h, e)).
Proof.
  intros Hsq. split.
  - intros (m & c & e & H). apply spatial_occupancy_Ok_full in H.
    destruct H as (counts & fd & Hlen & Hndim & Hsize & Harena & Hacc & Hfd & _).
    repeat split; try assumption.
    + apply (np_min_diff_Ok time fd Hfd).
    + exists counts, e. exact Hacc.
  - intros (Hlen & Hndim & Hsize & Harena & Htime & h & e & Hacc).
    destruct position as [| x0 [| y1 [| z r]]]; try discriminate Hlen.
    unfold spatial_occupancy.
    cbn [length Nat.eqb orb negb hd] in *. rewrite Hndim, Hsize, !Nat.eqb_refl.
    cbn [negb].
    destruct (kw_arena_size kw) as [arena_size |]; [| contradiction].
    rewrite (debug_header_succeeds _ time Htime). cbn [bind row nth_error].
    unfold kept, good in Hacc. cbn [map] in Hacc. rewrite Hacc. cbn [bind].
    destruct (np_min_diff_succeeds time Htime) as [fd Hfd]. rewrite Hfd. cbn [bind].
    rewrite Hsq.
    assert (Hsz : Np.size h <> 0%nat).
    { eapply accumulatespatial_2d_size; [| exact Hacc]. reflexivity. }
    destruct (Np.size h) as [| n]; [contradiction |].
    cbn [bind]. eexists. eexists. eexists. reflexivity.
Qed.

Lemma X9_witness :
  (exists m c e,
      spatial_occupancy [0; 1; 2] [Sample.xs; Sample.ys] (Sample.speed1 [1; 1; 1])
                        (Sample.kw None None) = Ok (m, c, e)) <->
  (length [Sample.xs; Sample.ys] = 2%nat /\
   speed_ndim (Sample.speed1 [1; 1; 1]) = 1%nat /\
   length (speed_flat (Sample.speed1 [1; 1; 1])) = length (hd [] [Sample.xs; Sample.ys]) /\
   kw_arena_size (Sample.kw None None) <> None /\
   (2 <= length [0; 1; 2])%nat /\
   exists h e,
     accumulatespatial (kept [Sample.xs; Sample.ys] (Sample.speed1 [1; 1; 1])
                             (Sample.kw None None))
                       (Sample.kw None None) = Ok (h, e)).
Proof.
  apply (X9_mapper_returns_iff
           [0; 1; 2] [Sample.xs; Sample.ys] (Sample.speed1 [1; 1; 1]) (Sample.kw None None)).
  reflexivity.
Defined.

(** X10.  The frame duration is taken from the differences of the
    timestamps, so with fewer than two timestamps the mapper raises and
    returns nothing, whatever the other arguments are. *)
Theorem X10_needs_two_timestamps time position speed kw :
  (length time < 2)%nat ->
  exists err, spatial_occupancy time position speed kw = Raise err.
Proof.
  intros Hlen.
  destruct (spatial_occupancy time position speed kw) as [[[m c] e] | err] eqn:H;
    [| exists err; reflexivity].
  apply spatial_occupancy_Ok in H.
  destruct H as (counts & fd & _ & _ & Hfd & _).
  apply np_min_diff_Ok in Hfd. lia.
Qed.

Lemma X10_witness :
  exists err,
    spatial_occupancy [0] [Sample.xs; Sample.ys] (Sample.speed1 [1; 1; 1])
                      (Sample.kw None None) = Raise err.
Proof.
  apply (X10_needs_two_timestamps
           [0] [Sample.xs; Sample.ys] (Sample.speed1 [1; 1; 1]) (Sample.kw None None)).
  simpl. lia.
Defined.

(* ================================================================== *)
(** ** Further properties of the occupancy mapper: what the result depends on *)

Lemma accumulatespatial_with_debug pos kw debug :
  accumulatespatial pos (with_debug kw debug) = accumulatespatial pos kw.
Proof. reflexivity. Qed.

(** X11.  The debug flag only adds diagnostics: with two timestamps at
    least, a call in debug mode returns or raises exactly what the same
    call does without it; and in any case the two return the same
    output or none. *)
Theorem X11_debug_changes_nothing time position speed kw :
  ((2 <= length time)%nat ->
   spatial_occupancy time position speed (with_debug kw true)
   = spatial_occupancy time position speed (with_debug kw false)) /\
  (forall r,
      spatial_occupancy time position speed (with_debug kw true) = Ok r <->
      spatial_occupancy time position speed (with_debug kw false) = Ok r).
Proof.
  assert (Heq : (2 <= length time)%nat ->
                spatial_occupancy time position speed (with_debug kw true)
                = spatial_occupancy time position speed (with_debug kw false)).
  { intros Htime. unfold spatial_occupancy.
    cbn [with_debug kw_debug kw_arena_size kw_speed_cutoff kw_bin_width kw_arena_shape get].
    rewrite !(debug_header_succeeds _ time Htime).
    destruct position as [| x0 [| y1 [| z r]]]; reflexivity. }
  split; [exact Heq |].
  intros r.
  destruct (Nat.le_gt_cases 2 (length time)) as [Htime | Htime].
  - rewrite (Heq Htime). tauto.
  - split; intros H; exfalso; destruct r as [[m c] e];
      apply spatial_occupancy_Ok in H;
      destruct H as (counts & fd & _ & _ & Hfd & _);
      apply np_min_diff_Ok in Hfd; lia.
Qed.

Lemma X11_witness :
  spatial_occupancy [0; 1; 2] [Sample.xs; Sample.ys] (Sample.speed1 [1; 1; 1])
                    (with_debug (Sample.kw None None) true)
  = spatial_occupancy [0; 1; 2] [Sample.xs; Sample.ys] (Sample.speed1 [1; 1; 1])
                      (with_debug (Sample.kw None None) false).
Proof.
  apply (proj1 (X11_debug_changes_nothing
                  [0; 1; 2] [Sample.xs; Sample.ys] (Sample.speed1 [1; 1; 1])
                  (Sample.kw None None))).
  simpl. lia.
Defined.

Lemma lower_ascii_idempotent (c : ascii) :
  Py.lower_ascii (Py.lower_ascii c) = Py.lower_ascii c.
Proof.
  destruct c as [b0 b1 b2 b3 b4 b5 b6 b7].
  destruct b0, b1, b2, b3, b4, b5, b6, b7; reflexivity.
Qed.

Lemma lower_idempotent (s : string) : Py.lower (Py.lower s) = Py.lower s.
Proof.
  induction s as [| c s IH]; simpl; [reflexivity |].
  rewrite lower_ascii_idempotent, IH. reflexivity.
Qed.

(** X12.  The shape tag is read without regard to case: a call returns the
    same output for a tag and for its lower-case form, and when the tag
    is one of the vocabularies the two calls also raise the same error
    (an unrecognised tag is quoted in the message as it was given). *)
Theorem X12_shape_tag_case_insensitive time position speed kw shape :
  (Py.str_in (Py.lower shape) Default.shapes_square = true
   \/ Py.str_in (Py.lower shape) Default.shapes_circle = true
   \/ Py.str_in (Py.lower shape) Default.shapes_linear = true ->
   spatial_occupancy time position speed (with_shape kw (Some shape))
   = spatial_occupancy time position speed (with_shape kw (Some (Py.lower shape)))) /\
  (forall r,
      spatial_occupancy time position speed (with_shape kw (Some shape)) = Ok r <->
      spatial_occupancy time position speed (with_shape kw (Some (Py.lower shape))) = Ok r).
Proof.
  assert (Heq : Py.str_in (Py.lower shape) Default.shapes_square = true
                \/ Py.str_in (Py.lower shape) Default.shapes_circle = true
                \/ Py.str_in (Py.lower shape) Default.shapes_linear = true ->
                spatial_occupancy time position speed (with_shape kw (Some shape))
                = spatial_occupancy time position speed
                    (with_shape kw (Some (Py.lower shape)))).
  { intros Hrec. unfold spatial_occupancy.
    change (kw_arena_size (with_shape kw (Some shape))) with (kw_arena_size kw).
    change (kw_arena_size (with_shape kw (Some (Py.lower shape)))) with (kw_arena_size kw).
    change (kw_bin_width (with_shape kw (Some shape))) with (kw_bin_width kw).
    change (kw_bin_width (with_shape kw (Some (Py.lower shape)))) with (kw_bin_width kw).
    change (kw_speed_cutoff (with_shape kw (Some shape))) with (kw_speed_cutoff kw).
    change (kw_speed_cutoff (with_shape kw (Some (Py.lower shape))))
      with (kw_speed_cutoff kw).
    change (kw_debug (with_shape kw (Some shape))) with (kw_debug kw).
    change (kw_debug (with_shape kw (Some (Py.lower shape)))) with (kw_debug kw).
    change (get (kw_arena_shape (with_shape kw (Some shape))) Default.shape) with shape.
    change (get (kw_arena_shape (with_shape kw (Some (Py.lower shape)))) Default.shape)
      with (Py.lower shape).
    rewrite lower_idempotent.
    destruct position as [| x0 [| y1 [| z r]]]; try reflexivity.
    cbn [length hd Nat.eqb orb negb row nth_error].
    destruct (negb (Nat.eqb (speed_ndim speed) 1)); [reflexivity |].
    destruct (negb (Nat.eqb (length (speed_flat speed)) (length x0))); [reflexivity |].
    destruct (kw_arena_size kw) as [arena_size |]; [| reflexivity].
    destruct (debug_header _ time); [| reflexivity].
    cbn [bind].
    rewrite !accumulatespatial_with_shape.
    destruct (accumulatespatial _ kw) as [[counts edges] |]; [| reflexivity].
    cbn [bind].
    destruct (Np.min (Np.diff time)); [| reflexivity].
    cbn [bind].
    destruct (Py.str_in (Py.lower shape) Default.shapes_square); [reflexivity |].
    destruct (Py.str_in (Py.lower shape) Default.shapes_circle); [reflexivity |].
    destruct (Py.str_in (Py.lower shape) Default.shapes_linear); [reflexivity |].
    destruct Hrec as [Hr | [Hr | Hr]]; discriminate Hr. }
  split; [exact Heq |].
  intros r.
  destruct (Py.str_in (Py.lower shape) Default.shapes_square) eqn:Hsq;
    [rewrite Heq by tauto; tauto |].
  destruct (Py.str_in (Py.lower shape) Default.shapes_circle) eqn:Hci;
    [rewrite Heq by tauto; tauto |].
  destruct (spatial_occupancy_no_coverage time position speed kw shape _ Hsq Hci eq_refl)
    as [[e1 H1] _].
  assert (Hsq' : Py.str_in (Py.lower (Py.lower shape)) Default.shapes_square = false)
    by (rewrite lower_idempotent; exact Hsq).
  assert (Hci' : Py.str_in (Py.lower (Py.lower shape)) Default.shapes_circle = false)
    by (rewrite lower_idempotent; exact Hci).
  destruct (spatial_occupancy_no_coverage time position speed kw (Py.lower shape) _
              Hsq' Hci' eq_refl) as [[e2 H2] _].
  rewrite H1, H2. split; intros H; discriminate H.
Qed.

Lemma X12_witness :
  spatial_occupancy [0; 1; 2] [Sample.xs; Sample.ys] (Sample.speed1 [1; 1; 1])
                    (with_shape (Sample.kw None None) (Some "SQUARE"%string))
  = spatial_occupancy [0; 1; 2] [Sample.xs; Sample.ys] (Sample.speed1 [1; 1; 1])
                      (with_shape (Sample.kw None None) (Some (Py.lower "SQUARE"))).
Proof.
  apply (proj1 (X12_shape_tag_case_insensitive
                  [0; 1; 2] [Sample.xs; Sample.ys] (Sample.speed1 [1; 1; 1])
                  (Sample.kw None None) "SQUARE")).
  left. reflexivity.
Defined.

Lemma same_where_bool_index (m : list bool) (a b : list coord) :
  same_where m a b -> Np.bool_index a m = Np.bool_index b m /\ length a = length b.
Proof.
  revert a b. induction m as [| k m IH]; intros [| u a] [| v b] H; simpl in H;
    try contradiction; [split; reflexivity |].
  destruct H as [Hk H]. destruct (IH a b H) as [Hidx Hlen].
  split; [| simpl; congruence].
  simpl. destruct k; [rewrite (Hk eq_refl), Hidx; reflexivity | exact Hidx].
Qed.

(** X13.  Only the samples that pass the speed filter matter: two position
    arrays that agree at every sample whose speed exceeds the cut-off
    give the same result, whatever they hold at the other samples. *)
Theorem X13_slow_samples_have_no_influence time x y x' y' speed kw :
  same_where (good speed kw) x x' ->
  same_where (good speed kw) y y' ->
  spatial_occupancy time [x; y] speed kw = spatial_occupancy time [x'; y'] speed kw.
Proof.
  intros Hx Hy.
  destruct (same_where_bool_index _ _ _ Hx) as [Hix Hlx].
  destruct (same_where_bool_index _ _ _ Hy) as [Hiy _].
  unfold good in Hix, Hiy.
  unfold spatial_occupancy.
  cbn [length hd Nat.eqb orb negb row nth_error bind].
  rewrite Hlx, Hix, Hiy. reflexivity.
Qed.

Lemma X13_witness :
  spatial_occupancy [0; 1; 2] [Sample.vals [0; 3; 10]; Sample.vals [0; 7; 10]]
                    (Sample.speed1 [1; 0; 1]) (Sample.kw None None)
  = spatial_occupancy [0; 1; 2] [Sample.vals [0; 8; 10]; [Val 0; NaN; Val 10]]
                      (Sample.speed1 [1; 0; 1]) (Sample.kw None None).
Proof.
  apply (X13_slow_samples_have_no_influence
           [0; 1; 2] (Sample.vals [0; 3; 10]) (Sample.vals [0; 7; 10])
           (Sample.vals [0; 8; 10]) [Val 0; NaN; Val 10]
           (Sample.speed1 [1; 0; 1]) (Sample.kw None None)).
  - simpl. repeat split; intros H; try reflexivity; discriminate H.
  - simpl. repeat split; intros H; try reflexivity; discriminate H.
Defined.

(* ================================================================== *)
(** ** Further properties of the occupancy mapper: the map, the mask and the coverage *)

Lemma mask_bit_eqb (n : nat) :
  Np.Qlt_bool (count_to_Q n) (1 # 1000) = Nat.eqb n 0.
Proof.
  destruct (Nat.eqb n 0) eqn:E.
  - apply Qlt_bool_iff. apply count_to_Q_zero. apply Nat.eqb_eq. exact E.
  - apply Nat.eqb_neq in E. apply Qlt_bool_false_iff.
    eapply Qle_trans; [| apply count_to_Q_pos; exact E].
    unfold Qle. simpl. lia.
Qed.

Lemma scaled_zero (fd : Q) : Qred (count_to_Q 0 * fd) = 0.
Proof.
  change 0 with (Qred 0). apply Qred_complete.
  unfold count_to_Q. simpl. apply Qmult_0_l.
Qed.

(** X14.  In the returned map a masked bin holds exactly zero time, and,
    when the frame duration is not negative, a bin that is not masked
    holds at least one frame duration. *)
Theorem X14_masked_bins_hold_zero time position speed kw m c e :
  spatial_occupancy time position speed kw = Ok (m, c, e) ->
  exists fd,
    Np.min (Np.diff time) = Ok fd /\
    Forall2 (fun (b : bool) (v : Q) =>
               (b = true -> v = 0) /\ (b = false -> 0 <= fd -> fd <= v))
            (nd_flat (ma_mask m)) (nd_flat (ma_data m)).
Proof.
  intros H. apply spatial_occupancy_Ok in H.
  destruct H as (counts & fd & _ & _ & Hfd & -> & _).
  exists fd. split; [exact Hfd |].
  cbn [ma_data ma_mask]. rewrite !nd_flat_map. apply Forall2_map_map.
  intros n. rewrite mask_bit_eqb. split.
  - intros Hn. apply Nat.eqb_eq in Hn. subst n. apply scaled_zero.
  - intros Hn Hpos. apply Nat.eqb_neq in Hn.
    rewrite Qred_correct.
    pose proof (count_to_Q_pos n Hn) as H1.
    assert (H2 : 1 * fd <= count_to_Q n * fd) by (apply Qmult_le_compat_r; assumption).
    rewrite Qmult_1_l in H2. exact H2.
Qed.

Lemma X14_witness :
  exists fd,
    Np.min (Np.diff [0; 1; 2]) = Ok fd /\
    Forall2 (fun (b : bool) (v : Q) =>
               (b = true -> v = 0) /\ (b = false -> 0 <= fd -> fd <= v))
            [false; true; false; true] [1; 0; 1; 0].
Proof.
  apply (X14_masked_bins_hold_zero
           [0; 1; 2] [Sample.xs; Sample.ys] (Sample.speed1 [1; 1; 1]) (Sample.kw None None)
           {| ma_data := Arr2 [[1; 0]; [1; 0]];
              ma_mask := Arr2 [[false; true]; [false; true]] |}
           (1 # 2) (Arr2 [[0; 5; 10]; [0; 5; 10]])).
  vm_compute. reflexivity.
Defined.

Lemma filter_map_comp {A B : Type} (P : B -> bool) (g : A -> B) (l : list A) :
  length (filter P (map g l)) = length (filter (fun a => P (g a)) l).
Proof.
  induction l as [| a l IH]; simpl; [reflexivity |].
  destruct (P (g a)); simpl; rewrite IH; reflexivity.
Qed.

Lemma filter_none_iff {A : Type} (P : A -> bool) (l : list A) :
  length (filter P l) = 0%nat <-> Forall (fun a => P a = false) l.
Proof.
  induction l as [| a l IH]; simpl.
  - split; [constructor | reflexivity].
  - destruct (P a) eqn:E; simpl; split; intros H.
    + discriminate H.
    + inversion H; subst. congruence.
    + constructor; [exact E | apply IH; exact H].
    + inversion H; subst. apply IH. assumption.
Qed.

Lemma filter_all_iff {A : Type} (P : A -> bool) (l : list A) :
  length (filter P l) = length l <-> Forall (fun a => P a = true) l.
Proof.
  induction l as [| a l IH]; simpl.
  - split; [constructor | reflexivity].
  - pose proof (filter_length_le P l) as Hle.
    destruct (P a) eqn:E; simpl; split; intros H.
    + constructor; [exact E | apply IH; lia].
    + inversion H; subst. f_equal. apply IH. assumption.
    + lia.
    + inversion H; subst. congruence.
Qed.

Lemma ratio_zero_iff (u n : nat) :
  n <> 0%nat -> (count_to_Q u / count_to_Q n == 0 <-> u = 0%nat).
Proof.
  intros Hn.
  assert (Hnz : ~ count_to_Q n == 0) by (unfold count_to_Q, Qeq; simpl; lia).
  split.
  - intros H.
    assert (Hu : count_to_Q u == 0).
    { rewrite <- (Qmult_div_r (count_to_Q u) (count_to_Q n) Hnz), H. ring. }
    unfold count_to_Q, Qeq in Hu. simpl in Hu. lia.
  - intros ->. unfold count_to_Q. simpl. field. exact Hnz.
Qed.

Lemma ratio_one_iff (u n : nat) :
  n <> 0%nat -> (count_to_Q u / count_to_Q n == 1 <-> u = n).
Proof.
  intros Hn.
  assert (Hnz : ~ count_to_Q n == 0) by (unfold count_to_Q, Qeq; simpl; lia).
  split.
  - intros H.
    assert (Hu : count_to_Q u == count_to_Q n).
    { rewrite <- (Qmult_div_r (count_to_Q u) (count_to_Q n) Hnz), H. ring. }
    unfold count_to_Q, Qeq in Hu. simpl in Hu. lia.
  - intros ->. field. exact Hnz.
Qed.

(** X15.  With a square tag the coverage is read off the mask: it is the
    number of bins that are not masked divided by the number of bins; it
    is 0 exactly when every bin is masked and 1 exactly when none is. *)
Theorem X15_coverage_is_the_unmasked_fraction time position speed kw m c e :
  spatial_occupancy time position speed kw = Ok (m, c, e) ->
  Py.str_in (Py.lower (get (kw_arena_shape kw) Default.shape)) Default.shapes_square = true ->
  nd_flat (ma_mask m) <> [] /\
  c == count_to_Q (length (filter negb (nd_flat (ma_mask m))))
       / count_to_Q (length (nd_flat (ma_mask m))) /\
  (c == 0 <-> Forall (fun b => b = true) (nd_flat (ma_mask m))) /\
  (c == 1 <-> Forall (fun b => b = false) (nd_flat (ma_mask m))).
Proof.
  intros H Hsq. apply spatial_occupancy_Ok_full in H.
  destruct H as (counts & fd & _ & _ & _ & _ & _ & _ & -> & Hcov).
  destruct (Hcov Hsq) as [Hsize ->]. clear Hcov.
  cbn [ma_mask]. rewrite nd_flat_map.
  unfold Np.size in Hsize. unfold Np.count_nonzero, Np.size.
  set (l := nd_flat counts) in *.
  assert (Hunmasked : length (filter negb (map (fun n => Np.Qlt_bool (count_to_Q n) (1 # 1000)) l))
                      = length (filter (fun n => negb (Nat.eqb n 0)) l)).
  { rewrite filter_map_comp. f_equal. apply filter_ext.
    intros n. rewrite mask_bit_eqb. reflexivity. }
  rewrite Hunmasked, length_map, Qred_correct.
  split.
  { intros E. apply map_eq_nil in E. rewrite E in Hsize. contradiction. }
  split; [reflexivity |].
  split.
  - rewrite (ratio_zero_iff _ _ Hsize), filter_none_iff, Forall_map.
    split; intros Hall; (eapply Forall_impl; [| exact Hall]); intros n Hn; cbv beta in *.
    + rewrite mask_bit_eqb. apply negb_false_iff. exact Hn.
    + rewrite mask_bit_eqb in Hn. rewrite Hn. reflexivity.
  - rewrite (ratio_one_iff _ _ Hsize), filter_all_iff, Forall_map.
    split; intros Hall; (eapply Forall_impl; [| exact Hall]); intros n Hn; cbv beta in *.
    + rewrite mask_bit_eqb. apply negb_true_iff. exact Hn.
    + rewrite mask_bit_eqb in Hn. rewrite Hn. reflexivity.
Qed.

Lemma X15_witness :
  [false; true; false; true] <> [] /\
  1 # 2 == count_to_Q (length (filter negb [false; true; false; true]))
           / count_to_Q (length [false; true; false; true]) /\
  (1 # 2 == 0 <-> Forall (fun b => b = true) [false; true; false; true]) /\
  (1 # 2 == 1 <-> Forall (fun b => b = false) [false; true; false; true]).
Proof.
  apply (X15_coverage_is_the_unmasked_fraction
           [0; 1; 2] [Sample.xs; Sample.ys] (Sample.speed1 [1; 1; 1]) (Sample.kw None None)
           {| ma_data := Arr2 [[1; 0]; [1; 0]];
              ma_mask := Arr2 [[false; true]; [false; true]] |}
           (1 # 2) (Arr2 [[0; 5; 10]; [0; 5; 10]])).
  - vm_compute. reflexivity.
  - reflexivity.
Defined.

Lemma bool_index_all_false {A : Type} (a : list A) (m : list bool) :
  Forall (fun b => b = false) m -> Np.bool_index a m = [].
Proof.
  intros Hm. revert a. induction Hm as [| b m Hb _ IH]; intros [| u a]; simpl;
    try reflexivity.
  subst b. apply IH.
Qed.

Lemma bool_index_length_le {A : Type} (a : list A) (m : list bool) :
  (length (Np.bool_index a m) <= count_true m)%nat.
Proof.
  unfold count_true. revert m. induction a as [| u a IH]; intros [| b m]; simpl;
    try lia.
  specialize (IH m). destruct b; simpl; lia.
Qed.

(** X16.  When no sample has a speed above the cut-off, a call that returns
    (it can only with limits given) returns a map in which every bin is
    masked and holds zero time, and with a square tag the coverage is 0. *)
Theorem X16_no_moving_sample time position speed kw m c e :
  Forall (fun v => v <= get (kw_speed_cutoff kw) Default.speed_cutoff) (speed_flat speed) ->
  spatial_occupancy time position speed kw = Ok (m, c, e) ->
  get (kw_limits kw) LimNone <> LimNone /\
  Forall (fun b => b = true) (nd_flat (ma_mask m)) /\
  Forall (fun v => v = 0) (nd_flat (ma_data m)) /\
  (Py.str_in (Py.lower (get (kw_arena_shape kw) Default.shape)) Default.shapes_square = true ->
   c = 0).
Proof.
  intros Hslow H. apply spatial_occupancy_Ok_full in H.
  destruct H as (counts & fd & Hlen & _ & _ & _ & Hacc & _ & -> & Hcov).
  assert (Hgood : Forall (fun b => b = false) (good speed kw)).
  { unfold good. apply Forall_map. eapply Forall_impl; [| exact Hslow].
    intros v Hv. cbv beta. apply Qlt_bool_false_iff. exact Hv. }
  destruct position as [| x0 [| y1 [| z r]]]; try discriminate Hlen.
  unfold kept in Hacc. cbn [map] in Hacc.
  rewrite !(bool_index_all_false _ _ Hgood) in Hacc.
  destruct (accumulatespatial_2d_total [] [] kw counts e Hacc) as (lims & Hl & Ht).
  cbn in Ht. apply list_sum_zero in Ht.
  split.
  { intros E. rewrite E in Hl. discriminate Hl. }
  cbn [ma_mask ma_data]. rewrite !nd_flat_map.
  split; [| split].
  - apply Forall_map. eapply Forall_impl; [| exact Ht].
    intros n ->. reflexivity.
  - apply Forall_map. eapply Forall_impl; [| exact Ht].
    intros n ->. apply scaled_zero.
  - intros Hsq. destruct (Hcov Hsq) as [Hsize ->].
    assert (Hnz : Np.count_nonzero counts = 0%nat).
    { unfold Np.count_nonzero. apply filter_none_iff.
      eapply Forall_impl; [| exact Ht]. intros n ->. reflexivity. }
    rewrite Hnz. transitivity (Qred 0); [| reflexivity].
    apply Qred_complete. unfold Qdiv. apply Qmult_0_l.
Qed.

Lemma X16_witness :
  LimTuple [0; 10; 0; 10] <> LimNone /\
  Forall (fun b => b = true) [true; true; true; true] /\
  Forall (fun v => v = 0) [0; 0; 0; 0] /\
  (Py.str_in (Py.lower Default.shape) Default.shapes_square = true -> 0 = 0).
Proof.
  apply (X16_no_moving_sample
           [0; 1; 2] [Sample.xs; Sample.ys] (Sample.speed1 [0; 0; 0])
           (Sample.kw None (Some (LimTuple [0; 10; 0; 10])))
           {| ma_data := Arr2 [[0; 0]; [0; 0]];
              ma_mask := Arr2 [[true; true]; [true; true]] |}
           0 (Arr2 [[0; 5; 10]; [0; 5; 10]])).
  - repeat constructor; vm_compute; discriminate.
  - vm_compute. reflexivity.
Defined.

Lemma count_to_Q_plus (a b : nat) :
  count_to_Q (a + b) == count_to_Q a + count_to_Q b.
Proof.
  unfold count_to_Q. rewrite Nat2Z.inj_add, inject_Z_plus. reflexivity.
Qed.

Lemma Qsum_scaled (fd : Q) (l : list nat) :
  Qsum (map (fun n => Qred (count_to_Q n * fd)) l) == count_to_Q (list_sum l) * fd.
Proof.
  unfold Qsum. induction l as [| n l IH].
  - simpl. unfold count_to_Q. simpl. rewrite Qmult_0_l. reflexivity.
  - change (list_sum (n :: l)) with (n + list_sum l)%nat.
    cbn [map fold_right].
    rewrite IH, Qred_correct, count_to_Q_plus. ring.
Qed.

Lemma count_to_Q_le (a b : nat) : (a <= b)%nat -> count_to_Q a <= count_to_Q b.
Proof.
  intros H. unfold count_to_Q, Qle. simpl. lia.
Qed.

(** X17.  The times of the returned map add up to the frame duration times
    the number of frames counted, and no more frames are counted than
    samples pass the speed filter: with a frame duration that is not
    negative, the total time is at most that number of samples times the
    frame duration. *)
Theorem X17_total_time time position speed kw m c e :
  spatial_occupancy time position speed kw = Ok (m, c, e) ->
  exists counts fd,
    accumulatespatial (kept position speed kw) kw = Ok (counts, e) /\
    Np.min (Np.diff time) = Ok fd /\
    Qsum (nd_flat (ma_data m)) == count_to_Q (list_sum (nd_flat counts)) * fd /\
    (list_sum (nd_flat counts) <= count_true (good speed kw))%nat /\
    (0 <= fd ->
     Qsum (nd_flat (ma_data m)) <= count_to_Q (count_true (good speed kw)) * fd).
Proof.
  intros H. apply spatial_occupancy_Ok in H.
  destruct H as (counts & fd & Hlen & Hacc & Hfd & -> & _).
  exists counts, fd.
  assert (Hsum : Qsum (nd_flat (nd_map (fun n => Qred (count_to_Q n * fd)) counts))
                 == count_to_Q (list_sum (nd_flat counts)) * fd).
  { rewrite nd_flat_map. apply Qsum_scaled. }
  assert (Hle : (list_sum (nd_flat counts) <= count_true (good speed kw))%nat).
  { destruct position as [| x0 [| y1 [| z r]]]; try discriminate Hlen.
    unfold kept in Hacc. cbn [map] in Hacc.
    destruct (accumulatespatial_2d_total _ _ kw counts e Hacc) as (lims & _ & Ht).
    rewrite Ht. unfold in_range_2d. rewrite filter_map_length.
    eapply Nat.le_trans; [apply filter_length_le |].
    rewrite length_combine.
    eapply Nat.le_trans; [apply Nat.le_min_l |].
    apply bool_index_length_le. }
  cbn [ma_data].
  repeat split; try assumption.
  intros Hpos. rewrite Hsum.
  apply Qmult_le_compat_r; [apply count_to_Q_le; exact Hle | exact Hpos].
Qed.

Lemma X17_witness :
  exists counts fd,
    accumulatespatial
      (kept [Sample.xs; Sample.ys] (Sample.speed1 [1; 1; 1]) (Sample.kw None None))
      (Sample.kw None None) = Ok (counts, Arr2 [[0; 5; 10]; [0; 5; 10]]) /\
    Np.min (Np.diff [0; 1; 2]) = Ok fd /\
    Qsum [1; 0; 1; 0] == count_to_Q (list_sum (nd_flat counts)) * fd /\
    Nat.le (list_sum (nd_flat counts))
           (count_true (good (Sample.speed1 [1; 1; 1]) (Sample.kw None None))) /\
    (0 <= fd ->
     Qsum [1; 0; 1; 0]
     <= count_to_Q (count_true (good (Sample.speed1 [1; 1; 1]) (Sample.kw None None))) * fd).
Proof.
  apply (X17_total_time
           [0; 1; 2] [Sample.xs; Sample.ys] (Sample.speed1 [1; 1; 1]) (Sample.kw None None)
           {| ma_data := Arr2 [[1; 0]; [1; 0]];
              ma_mask := Arr2 [[false; true]; [false; true]] |}
           (1 # 2) (Arr2 [[0; 5; 10]; [0; 5; 10]])).
  vm_compute. reflexivity.
Defined.

(** X18.  The map the mapper returns is always two-dimensional: its data
    has [ceil(height / bin_width)] rows of [ceil(width / bin_width)] bins,
    and the edges come as [[yedges, xedges]], each one longer than the
    number of bins along its axis. *)
Theorem X18_shape_of_the_map time position speed kw m c e :
  spatial_occupancy time position speed kw = Ok (m, c, e) ->
  let bw := get (kw_bin_width kw) Default.bin_width in
  exists w ht rows yedges xedges,
    validatekeyword__arena_size (kw_arena_size kw) 2 = Ok (Extent2 w ht, true) /\
    ma_data m = Arr2 rows /\
    e = Arr2 [yedges; xedges] /\
    Z.of_nat (length rows) = Qceiling (ht / bw) /\
    Forall (fun r => Z.of_nat (length r) = Qceiling (w / bw)) rows /\
    length yedges = S (length rows) /\
    Z.of_nat (length xedges) = (Qceiling (w / bw) + 1)%Z.
Proof.
  intros H. cbv zeta. apply spatial_occupancy_Ok in H.
  destruct H as (counts & fd & Hlen & Hacc & _ & -> & _).
  destruct position as [| x0 [| y1 [| z r]]]; try discriminate Hlen.
  unfold kept in Hacc. cbn [map] in Hacc.
  apply accumulatespatial_Ok in Hacc. cbv zeta in Hacc.
  destruct Hacc as [_ [(x' & w & lims & hist & edges & Hpos & _)
                      | (x' & y' & w & ht & lims & hist & xe & ye & _ & Hval & _ & Hh & -> & ->)]];
    [discriminate Hpos |].
  apply histogram2d_Ok in Hh.
  destruct Hh as (kx & ky & Hkx & Hky & Hnx & Hny & Hl & Hrows & Hxe & Hye & _).
  destruct (transpose_shape hist kx ky Hkx Hl Hrows) as [Ht1 Ht2].
  eexists w, ht, _, ye, xe.
  cbn [ma_data nd_map].
  split; [exact Hval |].
  split; [reflexivity |].
  split; [reflexivity |].
  rewrite !length_map, Ht1.
  split; [exact Hny |].
  split.
  { apply Forall_map. eapply Forall_impl; [| exact Ht2].
    intros row Hrow. cbv beta in *. rewrite length_map, Hrow. exact Hnx. }
  split; [exact Hye |].
  rewrite Hxe. lia.
Qed.

Lemma X18_witness :
  exists w ht rows yedges xedges,
    validatekeyword__arena_size (Some (SizeScalar 10)) 2 = Ok (Extent2 w ht, true) /\
    Arr2 [[1; 0]; [1; 0]] = Arr2 rows /\
    Arr2 [[0; 5; 10]; [0; 5; 10]] = Arr2 [yedges; xedges] /\
    Z.of_nat (length rows) = Qceiling (ht / 5) /\
    Forall (fun r => Z.of_nat (length r) = Qceiling (w / 5)) rows /\
    length yedges = S (length rows) /\
    Z.of_nat (length xedges) = (Qceiling (w / 5) + 1)%Z.
Proof.
  apply (X18_shape_of_the_map
           [0; 1; 2] [Sample.xs; Sample.ys] (Sample.speed1 [1; 1; 1]) (Sample.kw None None)
           {| ma_data := Arr2 [[1; 0]; [1; 0]];
              ma_mask := Arr2 [[false; true]; [false; true]] |}
           (1 # 2) (Arr2 [[0; 5; 10]; [0; 5; 10]])).
  vm_compute. reflexivity.
Defined.

(* ================================================================== *)
(** ** Further properties: the axes *)







Lemma nth_map_seq (g : nat -> nat) (k j : nat) :
  (j < k)%nat -> nth j (map g (seq 0 k)) 0%nat = g j.
Proof.
  intros Hj.
  rewrite (nth_indep _ 0%nat (g 0%nat)) by (rewrite length_map, length_seq; exact Hj).
  rewrite map_nth, seq_nth by exact Hj. reflexivity.
Qed.

Lemma transpose_map_seq (F : nat -> nat -> nat) (kx ky : nat) :
  (1 <= kx)%nat ->
  Np.transpose (map (fun i => map (fun j => F i j) (seq 0 ky)) (seq 0 kx))
  = map (fun j => map (fun i => F i j) (seq 0 kx)) (seq 0 ky).
Proof.
  intros Hkx. unfold Np.transpose.
  assert (Hhd : length (hd [] (map (fun i => map (fun j => F i j) (seq 0 ky)) (seq 0 kx))) = ky).
  { destruct kx as [| kx]; [lia |]. simpl. rewrite length_map, length_seq. reflexivity. }
  rewrite Hhd. apply map_ext_in. intros j Hj. apply in_seq in Hj.
  rewrite map_map. apply map_ext. intros i.
  apply (nth_map_seq (fun j => F i j)). lia.
Qed.

Lemma in_range_2d_swap xr yr (x y : list coord) :
  in_range_2d (yr, xr) y x = in_range_2d (xr, yr) x y.
Proof.
  unfold in_range_2d. cbn [fst snd].
  revert y. induction x as [| u x IH]; intros [| v y]; simpl; try reflexivity.
  rewrite IH, andb_comm. reflexivity.
Qed.

Lemma filter_combine_swap {A B : Type} (P : A -> B -> bool) (u : list A) (v : list B) :
  length (filter (fun p => P (snd p) (fst p)) (combine v u))
  = length (filter (fun p => P (fst p) (snd p)) (combine u v)).
Proof.
  revert v. induction u as [| a u IH]; intros [| b v]; simpl; try reflexivity.
  destruct (P a b); simpl; rewrite IH; reflexivity.
Qed.

(** X20.  The rows of the 2D histogram run along y and its columns along
    x, and the edges come in the same order: calling the accumulator with
    the two rows of positions, the two arena sizes and the two pairs of
    limits exchanged returns the transposed histogram with the two edge
    arrays exchanged. *)
Theorem X20_exchanging_the_axes_transposes x y w ht a b c d kw kw' rows yedges xedges :
  kw_arena_size kw = Some (SizeSeq [w; ht]) ->
  kw_limits kw = Some (LimTuple [a; b; c; d]) ->
  kw_arena_size kw' = Some (SizeSeq [ht; w]) ->
  kw_limits kw' = Some (LimTuple [c; d; a; b]) ->
  kw_bin_width kw' = kw_bin_width kw ->
  accumulatespatial [x; y] kw = Ok (Arr2 rows, Arr2 [yedges; xedges]) ->
  accumulatespatial [y; x] kw' = Ok (Arr2 (Np.transpose rows), Arr2 [xedges; yedges]).
Proof.
  intros Hsize Hlim Hsize' Hlim' Hbw H.
  apply accumulatespatial_Ok in H. cbv zeta in H.
  destruct H as [Hnz [(x' & w' & lims & hist & edges & Hpos & _)
                     | (x' & y' & w' & ht' & lims & hist & xe & ye & Hpos & Hval & Hl & Hh & Hrows & He)]];
    [discriminate Hpos |].
  inversion Hpos; subst x' y'; clear Hpos.
  rewrite Hsize in Hval. cbn in Hval. inversion Hval; subst w' ht'; clear Hval.
  rewrite Hlim in Hl. cbn in Hl. inversion Hl; subst lims; clear Hl.
  inversion Hrows; subst rows; clear Hrows.
  inversion He; subst ye xe; clear He.
  cbn [fst snd] in Hh.
  unfold Np.histogram2d in Hh. cbn [fst snd] in Hh.
  inv_bind_as Hh kx Hkx. inv_bind_as Hh rx Hrx. destruct rx as [xlo xhi].
  inv_bind_as Hh ky Hky. inv_bind_as Hh ry Hry. destruct ry as [ylo yhi].
  inversion Hh; subst hist yedges xedges; clear Hh.
  unfold accumulatespatial. rewrite Hsize', Hlim', Hbw.
  cbn [length Nat.eqb orb negb get limits_type_ok validatekeyword__arena_size bind].
  unfold num_bins_of. rewrite (Qeq_bool_false _ _ Hnz).
  cbn [bind row nth_error].
  unfold limits_2d.
  cbn [limits_eq_None bind limits_elems length Nat.eqb negb nth fst snd].
  rewrite in_range_2d_swap.
  unfold Np.histogram2d. cbn [fst snd].
  rewrite Hky. cbn [bind]. rewrite Hry. cbn [bind].
  rewrite Hkx. cbn [bind]. rewrite Hrx. cbn [bind].
  apply bin_count_Ok in Hkx. destruct Hkx as [Hkx _].
  rewrite (transpose_map_seq _ kx ky Hkx).
  f_equal. f_equal. f_equal. f_equal.
  apply map_ext. intros j. apply map_ext. intros i.
  rewrite <- (filter_combine_swap
                (fun s t => Np.is_bin (Np.bin_of xlo xhi kx s) i
                            && Np.is_bin (Np.bin_of ylo yhi ky t) j)).
  f_equal. apply filter_ext. intros p. cbv beta. apply andb_comm.
Qed.

Lemma X20_witness :
  accumulatespatial [Sample.ys; Sample.xs]
    (Build_kwargs None (Some (SizeSeq [5; 10])) (Some 5) None
                  (Some (LimTuple [0; 10; 0; 10])) None)
  = Ok (Arr2 (Np.transpose [[2; 0]]%nat), Arr2 [[0; 5; 10]; [0; 10]]).
Proof.
  apply (X20_exchanging_the_axes_transposes
           Sample.xs Sample.ys 10 5 0 10 0 10
           (Build_kwargs None (Some (SizeSeq [10; 5])) (Some 5) None
                         (Some (LimTuple [0; 10; 0; 10])) None)
           (Build_kwargs None (Some (SizeSeq [5; 10])) (Some 5) None
                         (Some (LimTuple [0; 10; 0; 10])) None)
           [[2; 0]]%nat [0; 10] [0; 5; 10]).
  - reflexivity.
  - reflexivity.
  - reflexivity.
  - reflexivity.
  - reflexivity.
  - vm_compute. reflexivity.
Defined.
